(** * ScrollResponder: a shallow embedding of [Libraries/Components/ScrollResponder.js]

    The mixin is modelled method by method.  A method of the mixin is a
    computation in a small monad [M] that
    - reads the answers of the external collaborators ([Env]):
      [performanceNow()], [TextInputState], [Dimensions], the scrollable node;
    - reads and writes the component instance ([Instance], the JS [this]):
      [this.props], [this.state] and the keyboard fields of the instance;
    - logs the outbound calls it makes ([Effect]): host callbacks, blur,
      frame-rate logger, view-manager commands, console messages;
    - may end with an exception ([Throw]), as [nullthrows] and [invariant] do.

    JS numbers (time stamps, coordinates, offsets) are finite numbers and are
    modelled by exact rationals [Q]; node handles / react tags by [Z].

    A host callback is an outbound call: it is logged, and it is taken not to
    call back into the mixin nor to assign [this.state] while the handler that
    forwards to it runs.  What a collaborator answers after the callback (the
    clock, the focused field) is whatever [Env] says, so nothing is assumed
    about the callback's effect on them. *)

From Stdlib Require Import QArith ZArith List String Bool.
From Stdlib Require Import Qminmax.
Import ListNotations.

Local Open Scope Q_scope.

(** ** JS values and operators used by the mixin *)

Module Js.

(** [a < b] on numbers. *)
Definition lt (a b : Q) : bool := negb (Qle_bool b a).

(** [x || 0] on an optional number: [undefined] and [0] give [0]. *)
Definition or_zero (x : option Q) : Q :=
  match x with
  | Some q => if Qeq_bool q 0 then 0 else q
  | None => 0
  end.

(** [Math.max(a, b)]. *)
Definition Math_max (a b : Q) : Q := if Qle_bool a b then b else a.

(** Truthiness of an optional node handle ([?number]): [null], [undefined]
    and [0] are falsy. *)
Definition truthy_handle (t : option Z) : bool :=
  match t with
  | Some n => negb (n =? 0)%Z
  | None => false
  end.

(** [a !== b] where [a] is an optional handle and [b] a handle. *)
Definition strict_neq (a : option Z) (b : Z) : bool :=
  match a with
  | Some n => negb (n =? b)%Z
  | None => true
  end.

(** [x !== false] on an optional boolean. *)
Definition not_false (x : option bool) : bool :=
  match x with
  | Some false => false
  | _ => true
  end.

(** [!!x] on an optional boolean. *)
Definition to_bool (x : option bool) : bool :=
  match x with
  | Some true => true
  | _ => false
  end.

End Js.

(** The value of the prop [keyboardShouldPersistTaps]:
    ['always' | 'never' | 'handled' | false | true], or absent. *)
Inductive TapsPolicy :=
| TapsUndefined
| TapsNull
| TapsBool (b : bool)
| TapsString (s : string).

(** [!keyboardShouldPersistTaps] *)
Definition taps_falsy (p : TapsPolicy) : bool :=
  match p with
  | TapsUndefined | TapsNull => true
  | TapsBool b => negb b
  | TapsString s => String.eqb s ""
  end.

(** [keyboardShouldPersistTaps === s] for a string literal [s]. *)
Definition taps_is (p : TapsPolicy) (s : string) : bool :=
  match p with
  | TapsString s' => String.eqb s' s
  | _ => false
  end.

(** [keyboardShouldPersistTaps === true] *)
Definition taps_is_true (p : TapsPolicy) : bool :=
  match p with
  | TapsBool true => true
  | _ => false
  end.

(** ** Events *)

(** [PressEvent]: [e.target] and [e.nativeEvent.touches.length]. *)
Record PressEvent := mkPressEvent {
  target : option Z;
  touches_length : nat
}.

(** [ScrollEvent]: [e.nativeEvent.velocity], a pair [{x, y}] when present. *)
Record ScrollEvent := mkScrollEvent {
  velocity : option (Q * Q)
}.

(** [KeyboardEvent]: [e.endCoordinates.screenY]. *)
Record KeyboardEvent := mkKeyboardEvent {
  endCoordinates_screenY : Q
}.

Inductive Payload :=
| PressPayload (e : PressEvent)
| ScrollPayload (e : ScrollEvent)
| KeyboardPayload (e : option KeyboardEvent).

(** ** Props, state and instance *)

(** The optional callbacks of [this.props] that the mixin forwards to. *)
Inductive HostCallback :=
| onTouchStart | onTouchMove | onTouchEnd | onTouchCancel
| onResponderGrant | onResponderRelease
| onScroll | onScrollBeginDrag | onScrollEndDrag
| onMomentumScrollBegin | onMomentumScrollEnd
| onKeyboardWillShow | onKeyboardWillHide
| onKeyboardDidShow | onKeyboardDidHide
| onScrollResponderKeyboardDismissed.

Record Props := mkProps {
  disableScrollViewPanResponder : option bool;
  keyboardShouldPersistTaps : TapsPolicy;
  (** whether [this.props.<callback>] is supplied (truthy) *)
  supplies : HostCallback -> bool
}.

Definition IS_ANIMATING_TOUCH_START_THRESHOLD_MS : Q := 16.

Record State := mkState {
  isTouching : bool;
  lastMomentumScrollBeginTime : Q;
  lastMomentumScrollEndTime : Q;
  observedScrollSinceBecomingResponder : bool;
  becameResponderWhileAnimating : bool
}.

Definition scrollResponderMixinGetInitialState : State :=
  {| isTouching := false;
     lastMomentumScrollBeginTime := 0;
     lastMomentumScrollEndTime := 0;
     observedScrollSinceBecomingResponder := false;
     becameResponderWhileAnimating := false |}.

Inductive KeyboardEventName :=
| keyboardWillShow | keyboardWillHide | keyboardDidShow | keyboardDidHide.

(** The component instance, JS [this].  [additionalScrollOffset] is a number
    from [UNSAFE_componentWillMount] on; [preventNegativeScrollOffset] and
    [additionalOffset] do not exist ([None]) until they are first assigned. *)
Record Instance := mkInstance {
  props : Props;
  state : State;
  keyboardWillOpenTo : option KeyboardEvent;
  additionalScrollOffset : Q;
  preventNegativeScrollOffset : option bool;
  additionalOffset : option Q;
  _subscriptionKeyboardWillShow : option KeyboardEventName;
  _subscriptionKeyboardWillHide : option KeyboardEventName;
  _subscriptionKeyboardDidShow : option KeyboardEventName;
  _subscriptionKeyboardDidHide : option KeyboardEventName
}.

(** Field assignments [this.state.f = v] and [this.f = v]. *)
Definition set_state (f : State -> State) (this : Instance) : Instance :=
  {| props := props this;
     state := f (state this);
     keyboardWillOpenTo := keyboardWillOpenTo this;
     additionalScrollOffset := additionalScrollOffset this;
     preventNegativeScrollOffset := preventNegativeScrollOffset this;
     additionalOffset := additionalOffset this;
     _subscriptionKeyboardWillShow := _subscriptionKeyboardWillShow this;
     _subscriptionKeyboardWillHide := _subscriptionKeyboardWillHide this;
     _subscriptionKeyboardDidShow := _subscriptionKeyboardDidShow this;
     _subscriptionKeyboardDidHide := _subscriptionKeyboardDidHide this |}.

Definition set_isTouching (v : bool) (s : State) : State :=
  {| isTouching := v;
     lastMomentumScrollBeginTime := lastMomentumScrollBeginTime s;
     lastMomentumScrollEndTime := lastMomentumScrollEndTime s;
     observedScrollSinceBecomingResponder := observedScrollSinceBecomingResponder s;
     becameResponderWhileAnimating := becameResponderWhileAnimating s |}.

Definition set_lastMomentumScrollBeginTime (v : Q) (s : State) : State :=
  {| isTouching := isTouching s;
     lastMomentumScrollBeginTime := v;
     lastMomentumScrollEndTime := lastMomentumScrollEndTime s;
     observedScrollSinceBecomingResponder := observedScrollSinceBecomingResponder s;
     becameResponderWhileAnimating := becameResponderWhileAnimating s |}.

Definition set_lastMomentumScrollEndTime (v : Q) (s : State) : State :=
  {| isTouching := isTouching s;
     lastMomentumScrollBeginTime := lastMomentumScrollBeginTime s;
     lastMomentumScrollEndTime := v;
     observedScrollSinceBecomingResponder := observedScrollSinceBecomingResponder s;
     becameResponderWhileAnimating := becameResponderWhileAnimating s |}.

Definition set_observedScrollSinceBecomingResponder (v : bool) (s : State) : State :=
  {| isTouching := isTouching s;
     lastMomentumScrollBeginTime := lastMomentumScrollBeginTime s;
     lastMomentumScrollEndTime := lastMomentumScrollEndTime s;
     observedScrollSinceBecomingResponder := v;
     becameResponderWhileAnimating := becameResponderWhileAnimating s |}.

Definition set_becameResponderWhileAnimating (v : bool) (s : State) : State :=
  {| isTouching := isTouching s;
     lastMomentumScrollBeginTime := lastMomentumScrollBeginTime s;
     lastMomentumScrollEndTime := lastMomentumScrollEndTime s;
     observedScrollSinceBecomingResponder := observedScrollSinceBecomingResponder s;
     becameResponderWhileAnimating := v |}.

Definition set_keyboardWillOpenTo (v : option KeyboardEvent) (this : Instance) : Instance :=
  {| props := props this;
     state := state this;
     keyboardWillOpenTo := v;
     additionalScrollOffset := additionalScrollOffset this;
     preventNegativeScrollOffset := preventNegativeScrollOffset this;
     additionalOffset := additionalOffset this;
     _subscriptionKeyboardWillShow := _subscriptionKeyboardWillShow this;
     _subscriptionKeyboardWillHide := _subscriptionKeyboardWillHide this;
     _subscriptionKeyboardDidShow := _subscriptionKeyboardDidShow this;
     _subscriptionKeyboardDidHide := _subscriptionKeyboardDidHide this |}.

Definition set_additionalScrollOffset (v : Q) (this : Instance) : Instance :=
  {| props := props this;
     state := state this;
     keyboardWillOpenTo := keyboardWillOpenTo this;
     additionalScrollOffset := v;
     preventNegativeScrollOffset := preventNegativeScrollOffset this;
     additionalOffset := additionalOffset this;
     _subscriptionKeyboardWillShow := _subscriptionKeyboardWillShow this;
     _subscriptionKeyboardWillHide := _subscriptionKeyboardWillHide this;
     _subscriptionKeyboardDidShow := _subscriptionKeyboardDidShow this;
     _subscriptionKeyboardDidHide := _subscriptionKeyboardDidHide this |}.

Definition set_preventNegativeScrollOffset (v : bool) (this : Instance) : Instance :=
  {| props := props this;
     state := state this;
     keyboardWillOpenTo := keyboardWillOpenTo this;
     additionalScrollOffset := additionalScrollOffset this;
     preventNegativeScrollOffset := Some v;
     additionalOffset := additionalOffset this;
     _subscriptionKeyboardWillShow := _subscriptionKeyboardWillShow this;
     _subscriptionKeyboardWillHide := _subscriptionKeyboardWillHide this;
     _subscriptionKeyboardDidShow := _subscriptionKeyboardDidShow this;
     _subscriptionKeyboardDidHide := _subscriptionKeyboardDidHide this |}.

Definition set_additionalOffset (v : Q) (this : Instance) : Instance :=
  {| props := props this;
     state := state this;
     keyboardWillOpenTo := keyboardWillOpenTo this;
     additionalScrollOffset := additionalScrollOffset this;
     preventNegativeScrollOffset := preventNegativeScrollOffset this;
     additionalOffset := Some v;
     _subscriptionKeyboardWillShow := _subscriptionKeyboardWillShow this;
     _subscriptionKeyboardWillHide := _subscriptionKeyboardWillHide this;
     _subscriptionKeyboardDidShow := _subscriptionKeyboardDidShow this;
     _subscriptionKeyboardDidHide := _subscriptionKeyboardDidHide this |}.

Definition set_subscriptions (ws wh ds dh : option KeyboardEventName)
    (this : Instance) : Instance :=
  {| props := props this;
     state := state this;
     keyboardWillOpenTo := keyboardWillOpenTo this;
     additionalScrollOffset := additionalScrollOffset this;
     preventNegativeScrollOffset := preventNegativeScrollOffset this;
     additionalOffset := additionalOffset this;
     _subscriptionKeyboardWillShow := ws;
     _subscriptionKeyboardWillHide := wh;
     _subscriptionKeyboardDidShow := ds;
     _subscriptionKeyboardDidHide := dh |}.

(** ** External collaborators *)

(** What the collaborators answer while one method of the mixin runs.  Every
    method asks each of them at most once. *)
Record Env := mkEnv {
  (** [performanceNow()] *)
  performanceNow : Q;
  (** [TextInputState.currentlyFocusedField()] *)
  currentlyFocusedField : option Z;
  (** [TextInputState.isTextInput(handle)] *)
  isTextInput : Z -> bool;
  (** [Dimensions.get('window').height] *)
  windowHeight : Q;
  (** [this.getScrollableNode ? this.getScrollableNode()
       : ReactNative.findNodeHandle(this)] *)
  scrollableNode : option Z;
  (** [Platform.OS === 'ios'] *)
  platformIsIOS : bool;
  (** [this.getNativeScrollRef], and the ref it returns *)
  getNativeScrollRef : option Z;
  (** [ReactNative.findNodeHandle(this.getInnerViewNode())] *)
  innerViewNode : option Z
}.

Inductive Command := scrollTo | scrollToEnd | flashScrollIndicators.

Inductive Arg := NumArg (q : Q) | BoolArg (b : bool).

Record Rect := mkRect {
  rect_x : Q; rect_y : Q; rect_width : Q; rect_height : Q;
  (** ['animated' in rect], and its value *)
  rect_animated : option (option bool)
}.

(** The outbound calls of the mixin, in the order they are made. *)
Inductive Effect :=
| CallHost (cb : HostCallback) (arg : Payload)
| BlurTextInput (handle : Z)
| FrameRateBeginScroll
| FrameRateEndScroll
| DispatchViewManagerCommand (node : option Z) (cmd : Command) (args : list Arg)
| ZoomToRect (ref : Z) (rect : Rect) (animated : bool)
| MeasureLayout (node : Z) (relativeTo : option Z)
| MeasureLayoutOfRef (ref : Z)
| KeyboardAddListener (name : KeyboardEventName)
| SubscriptionRemove (name : KeyboardEventName)
| ConsoleWarn (msg : string)
| ConsoleError (msg : string).

(** ** The monad of mixin methods *)

Inductive Completion (A : Type) :=
| Normal (a : A)
| Throw (msg : string).
Arguments Normal {A} a.
Arguments Throw {A} msg.

Definition M (A : Type) : Type :=
  Env -> Instance -> Completion A * Instance * list Effect.

Definition ret {A} (a : A) : M A := fun _ this => (Normal a, this, []).

Definition bind {A B} (m : M A) (k : A -> M B) : M B :=
  fun env this =>
    match m env this with
    | (Normal a, this1, out1) =>
        match k a env this1 with
        | (r, this2, out2) => (r, this2, out1 ++ out2)
        end
    | (Throw msg, this1, out1) => (Throw msg, this1, out1)
    end.

Declare Scope method_scope.
Delimit Scope method_scope with method.
Notation "x <- m ;; k" := (bind m (fun x => k))
  (at level 61, m at next level, right associativity) : method_scope.
Notation "m ;; k" := (bind m (fun _ => k))
  (at level 61, right associativity) : method_scope.
Local Open Scope method_scope.

Definition ask {A} (f : Env -> A) : M A := fun env this => (Normal (f env), this, []).
Definition this_ {A} (f : Instance -> A) : M A := fun _ this => (Normal (f this), this, []).
Definition assign (f : Instance -> Instance) : M unit := fun _ this => (Normal tt, f this, []).
Definition emit (e : Effect) : M unit := fun _ this => (Normal tt, this, [e]).
Definition throw {A} (msg : string) : M A := fun _ this => (Throw msg, this, []).
Definition when (b : bool) (m : M unit) : M unit := if b then m else ret tt.

(** [this.props.cb && this.props.cb(arg)] *)
Definition forward (cb : HostCallback) (arg : Payload) : M unit :=
  supplied <- this_ (fun this => supplies (props this) cb) ;;
  when supplied (emit (CallHost cb arg)).

(** [nullthrows(x)] *)
Definition nullthrows {A} (x : option A) : M A :=
  match x with
  | Some a => ret a
  | None => throw "Got unexpected null or undefined"
  end.

(** [invariant(cond, msg)] *)
Definition invariant (cond : bool) (msg : string) : M unit :=
  if cond then ret tt else throw msg.

(** Projections of a finished method call. *)
Definition completion {A} (r : Completion A * Instance * list Effect) : Completion A :=
  fst (fst r).
Definition after {A} (r : Completion A * Instance * list Effect) : Instance :=
  snd (fst r).
Definition effects {A} (r : Completion A * Instance * list Effect) : list Effect :=
  snd r.

(** ** The methods of [ScrollResponderMixin] *)

Inductive Warning :=
| DeprecatedScrollToArguments
| DeprecatedZoomToAnimatedArgument
| DeprecatedBooleanPersistTaps (b : bool).

Definition warning_text (w : Warning) : string :=
  match w with
  | DeprecatedScrollToArguments =>
      "`scrollResponderScrollTo(x, y, animated)` is deprecated. Use `scrollResponderScrollTo({x: 5, y: 5, animated: true})` instead."
  | DeprecatedZoomToAnimatedArgument =>
      "`scrollResponderZoomTo` `animated` argument is deprecated. Use `options.animated` instead"
  | DeprecatedBooleanPersistTaps b =>
      "'keyboardShouldPersistTaps={" ++ (if b then "true" else "false")
      ++ "}' is deprecated. Use 'keyboardShouldPersistTaps=" ++ (if b then "always" else "never")
      ++ "' instead"
  end.

Definition console_warn (w : Warning) : M unit := emit (ConsoleWarn (warning_text w)).

(** [this.props.disableScrollViewPanResponder === true] *)
Definition panResponderDisabled : M bool :=
  this_ (fun this => Js.to_bool (disableScrollViewPanResponder (props this))).

Definition scrollResponderHandleScrollShouldSetResponder : M bool :=
  disabled <- panResponderDisabled ;;
  if disabled then ret false
  else this_ (fun this => isTouching (state this)).

Definition scrollResponderHandleStartShouldSetResponder (e : PressEvent) : M bool :=
  disabled <- panResponderDisabled ;;
  if disabled then ret false
  else
    currentlyFocusedTextInput <- ask currentlyFocusedField ;;
    policy <- this_ (fun this => keyboardShouldPersistTaps (props this)) ;;
    match currentlyFocusedTextInput with
    | Some focused =>
        if taps_is policy "handled" && Js.strict_neq (target e) focused
        then ret true
        else ret false
    | None => ret false
    end.

Definition scrollResponderIsAnimating : M bool :=
  now <- ask performanceNow ;;
  st <- this_ state ;;
  let timeSinceLastMomentumScrollEnd := now - lastMomentumScrollEndTime st in
  let isAnimating :=
    Js.lt timeSinceLastMomentumScrollEnd IS_ANIMATING_TOUCH_START_THRESHOLD_MS
    || Js.lt (lastMomentumScrollEndTime st) (lastMomentumScrollBeginTime st) in
  ret isAnimating.

Definition scrollResponderHandleStartShouldSetResponderCapture (e : PressEvent) : M bool :=
  animating <- scrollResponderIsAnimating ;;
  if animating then ret true
  else
    disabled <- panResponderDisabled ;;
    if disabled then ret false
    else
      currentlyFocusedTextInput <- ask currentlyFocusedField ;;
      policy <- this_ (fun this => keyboardShouldPersistTaps (props this)) ;;
      let keyboardNeverPersistTaps := taps_falsy policy || taps_is policy "never" in
      match currentlyFocusedTextInput, target e with
      | Some _, Some t =>
          if keyboardNeverPersistTaps && Js.truthy_handle (target e)
          then
            isInput <- ask (fun env => isTextInput env t) ;;
            if negb isInput then ret true else ret false
          else ret false
      | _, _ => ret false
      end.

Definition scrollResponderHandleResponderReject : M unit := ret tt.

Definition scrollResponderHandleTerminationRequest : M bool :=
  this_ (fun this => negb (observedScrollSinceBecomingResponder (state this))).

Definition scrollResponderHandleTouchEnd (e : PressEvent) : M unit :=
  assign (set_state (set_isTouching (negb (Nat.eqb (touches_length e) 0)))) ;;
  forward onTouchEnd (PressPayload e).

Definition scrollResponderHandleTouchCancel (e : PressEvent) : M unit :=
  assign (set_state (set_isTouching false)) ;;
  forward onTouchCancel (PressPayload e).

Definition scrollResponderHandleResponderRelease (e : PressEvent) : M unit :=
  forward onResponderRelease (PressPayload e) ;;
  currentlyFocusedTextInput <- ask currentlyFocusedField ;;
  policy <- this_ (fun this => keyboardShouldPersistTaps (props this)) ;;
  st <- this_ state ;;
  match currentlyFocusedTextInput with
  | Some focused =>
      when (negb (taps_is_true policy)
            && negb (taps_is policy "always")
            && Js.strict_neq (target e) focused
            && negb (observedScrollSinceBecomingResponder st)
            && negb (becameResponderWhileAnimating st))
        (forward onScrollResponderKeyboardDismissed (PressPayload e) ;;
         emit (BlurTextInput focused))
  | None => ret tt
  end.

Definition scrollResponderHandleScroll (e : ScrollEvent) : M unit :=
  assign (set_state (set_observedScrollSinceBecomingResponder true)) ;;
  forward onScroll (ScrollPayload e).

Definition scrollResponderHandleResponderGrant (e : ScrollEvent) : M unit :=
  assign (set_state (set_observedScrollSinceBecomingResponder false)) ;;
  forward onResponderGrant (ScrollPayload e) ;;
  animating <- scrollResponderIsAnimating ;;
  assign (set_state (set_becameResponderWhileAnimating animating)).

Definition scrollResponderHandleScrollBeginDrag (e : ScrollEvent) : M unit :=
  emit FrameRateBeginScroll ;;
  forward onScrollBeginDrag (ScrollPayload e).

(** [!velocity || (velocity.x === 0 && velocity.y === 0)] *)
Definition no_velocity (v : option (Q * Q)) : bool :=
  match v with
  | None => true
  | Some (x, y) => Qeq_bool x 0 && Qeq_bool y 0
  end.

Definition scrollResponderHandleScrollEndDrag (e : ScrollEvent) : M unit :=
  animating <- scrollResponderIsAnimating ;;
  when (negb animating && no_velocity (velocity e)) (emit FrameRateEndScroll) ;;
  forward onScrollEndDrag (ScrollPayload e).

Definition scrollResponderHandleMomentumScrollBegin (e : ScrollEvent) : M unit :=
  now <- ask performanceNow ;;
  assign (set_state (set_lastMomentumScrollBeginTime now)) ;;
  forward onMomentumScrollBegin (ScrollPayload e).

Definition scrollResponderHandleMomentumScrollEnd (e : ScrollEvent) : M unit :=
  emit FrameRateEndScroll ;;
  now <- ask performanceNow ;;
  assign (set_state (set_lastMomentumScrollEndTime now)) ;;
  forward onMomentumScrollEnd (ScrollPayload e).

Definition scrollResponderHandleTouchStart (e : PressEvent) : M unit :=
  assign (set_state (set_isTouching true)) ;;
  forward onTouchStart (PressPayload e).

Definition scrollResponderHandleTouchMove (e : PressEvent) : M unit :=
  forward onTouchMove (PressPayload e).

Definition scrollResponderGetScrollableNode : M (option Z) := ask scrollableNode.

(** The argument of [scrollResponderScrollTo]: the options object (possibly
    absent), or the deprecated positional form with a number first. *)
Record ScrollToOptions := mkScrollToOptions {
  opt_x : option Q;
  opt_y : option Q;
  opt_animated : option bool
}.

Inductive ScrollToArguments :=
| Positional (x : Q) (y : option Q) (animated : option bool)
| Options (o : option ScrollToOptions).

Definition scrollResponderScrollTo (a : ScrollToArguments) : M unit :=
  xya <- match a with
         | Positional x y animated =>
             console_warn DeprecatedScrollToArguments ;;
             ret (Some x, y, animated)
         | Options (Some o) => ret (opt_x o, opt_y o, opt_animated o)
         | Options None => ret (None, None, None)
         end ;;
  let '(x, y, animated) := xya in
  node <- scrollResponderGetScrollableNode ;;
  node <- nullthrows node ;;
  emit (DispatchViewManagerCommand (Some node) scrollTo
          [NumArg (Js.or_zero x); NumArg (Js.or_zero y); BoolArg (Js.not_false animated)]).

(** [options] is absent, or an object whose [animated] may be absent. *)
Definition scrollResponderScrollToEnd (options : option (option bool)) : M unit :=
  let animated :=
    Js.not_false (match options with Some o => o | None => None end) in
  node <- scrollResponderGetScrollableNode ;;
  emit (DispatchViewManagerCommand node scrollToEnd [BoolArg animated]).

Definition scrollResponderZoomTo (rect : Rect) (animated : option bool) : M unit :=
  ios <- ask platformIsIOS ;;
  invariant ios "zoomToRect is not implemented" ;;
  ra <- match rect_animated rect with
        | Some v =>
            ret ({| rect_x := rect_x rect; rect_y := rect_y rect;
                    rect_width := rect_width rect; rect_height := rect_height rect;
                    rect_animated := None |}, v)
        | None =>
            when (match animated with Some _ => true | None => false end)
              (console_warn DeprecatedZoomToAnimatedArgument) ;;
            ret (rect, animated)
        end ;;
  let '(rect, animated) := ra in
  ref <- ask getNativeScrollRef ;;
  match ref with
  | None =>
      throw "Expected zoomToRect to be called on a scrollViewRef. If this exception occurs it is likely a bug in React Native"
  | Some r => emit (ZoomToRect r rect (Js.not_false animated))
  end.

Definition scrollResponderFlashScrollIndicators : M unit :=
  node <- scrollResponderGetScrollableNode ;;
  emit (DispatchViewManagerCommand node flashScrollIndicators []).

(** [nodeHandle: number | React.ElementRef<...>] *)
Inductive NodeHandle :=
| NumberHandle (n : Z)
| RefHandle (r : Z).

Definition scrollResponderScrollNativeHandleToKeyboard (nodeHandle : NodeHandle)
    (additionalOffset_ : option Q) (preventNegativeScrollOffset_ : option bool) : M unit :=
  assign (set_additionalScrollOffset (Js.or_zero additionalOffset_)) ;;
  assign (set_preventNegativeScrollOffset (Js.to_bool preventNegativeScrollOffset_)) ;;
  match nodeHandle with
  | NumberHandle n =>
      inner <- ask innerViewNode ;;
      emit (MeasureLayout n inner)
  | RefHandle r => emit (MeasureLayoutOfRef r)
  end.

Definition scrollResponderInputMeasureAndScrollToKeyboard (left top width height : Q) : M unit :=
  windowH <- ask windowHeight ;;
  keyboard <- this_ keyboardWillOpenTo ;;
  let keyboardScreenY :=
    match keyboard with
    | Some k => endCoordinates_screenY k
    | None => windowH
    end in
  additional <- this_ additionalScrollOffset ;;
  let scrollOffsetY := top - keyboardScreenY + height + additional in
  prevent <- this_ preventNegativeScrollOffset ;;
  let scrollOffsetY :=
    if Js.to_bool prevent then Js.Math_max 0 scrollOffsetY else scrollOffsetY in
  scrollResponderScrollTo
    (Options (Some {| opt_x := Some 0; opt_y := Some scrollOffsetY; opt_animated := Some true |})) ;;
  assign (set_additionalOffset 0) ;;
  assign (set_preventNegativeScrollOffset false).

Definition scrollResponderTextInputFocusError (msg : string) : M unit :=
  emit (ConsoleError ("Error measuring text field: " ++ msg)).

Definition UNSAFE_componentWillMount : M unit :=
  policy <- this_ (fun this => keyboardShouldPersistTaps (props this)) ;;
  match policy with
  | TapsBool b => console_warn (DeprecatedBooleanPersistTaps b)
  | _ => ret tt
  end ;;
  assign (set_keyboardWillOpenTo None) ;;
  assign (set_additionalScrollOffset 0) ;;
  emit (KeyboardAddListener keyboardWillShow) ;;
  emit (KeyboardAddListener keyboardWillHide) ;;
  emit (KeyboardAddListener keyboardDidShow) ;;
  emit (KeyboardAddListener keyboardDidHide) ;;
  assign (set_subscriptions (Some keyboardWillShow) (Some keyboardWillHide)
            (Some keyboardDidShow) (Some keyboardDidHide)).

Definition remove_subscription (s : option KeyboardEventName) : M unit :=
  match s with
  | Some name => emit (SubscriptionRemove name)
  | None => ret tt
  end.

Definition componentWillUnmount : M unit :=
  ws <- this_ _subscriptionKeyboardWillShow ;; remove_subscription ws ;;
  wh <- this_ _subscriptionKeyboardWillHide ;; remove_subscription wh ;;
  ds <- this_ _subscriptionKeyboardDidShow ;; remove_subscription ds ;;
  dh <- this_ _subscriptionKeyboardDidHide ;; remove_subscription dh.

Definition scrollResponderKeyboardWillShow (e : KeyboardEvent) : M unit :=
  assign (set_keyboardWillOpenTo (Some e)) ;;
  forward onKeyboardWillShow (KeyboardPayload (Some e)).

Definition scrollResponderKeyboardWillHide (e : KeyboardEvent) : M unit :=
  assign (set_keyboardWillOpenTo None) ;;
  forward onKeyboardWillHide (KeyboardPayload (Some e)).

(** The event is not available on iOS: [e] may be absent. *)
Definition scrollResponderKeyboardDidShow (e : option KeyboardEvent) : M unit :=
  match e with
  | Some k => assign (set_keyboardWillOpenTo (Some k))
  | None => ret tt
  end ;;
  forward onKeyboardDidShow (KeyboardPayload e).

Definition scrollResponderKeyboardDidHide (e : KeyboardEvent) : M unit :=
  assign (set_keyboardWillOpenTo None) ;;
  forward onKeyboardDidHide (KeyboardPayload (Some e)).

(** ** Sequences of method calls *)

(** One call of a method of the mixin by the host's event dispatch. *)
Inductive Call :=
| HandleScrollShouldSetResponder
| HandleStartShouldSetResponder (e : PressEvent)
| HandleStartShouldSetResponderCapture (e : PressEvent)
| HandleResponderReject
| HandleTerminationRequest
| HandleTouchEnd (e : PressEvent)
| HandleTouchCancel (e : PressEvent)
| HandleResponderRelease (e : PressEvent)
| HandleScroll (e : ScrollEvent)
| HandleResponderGrant (e : ScrollEvent)
| HandleScrollBeginDrag (e : ScrollEvent)
| HandleScrollEndDrag (e : ScrollEvent)
| HandleMomentumScrollBegin (e : ScrollEvent)
| HandleMomentumScrollEnd (e : ScrollEvent)
| HandleTouchStart (e : PressEvent)
| HandleTouchMove (e : PressEvent)
| IsAnimating
| GetScrollableNode
| ScrollTo (a : ScrollToArguments)
| ScrollToEnd (options : option (option bool))
| ZoomTo (rect : Rect) (animated : option bool)
| FlashScrollIndicators
| ScrollNativeHandleToKeyboard (nodeHandle : NodeHandle)
    (additionalOffset_ : option Q) (preventNegativeScrollOffset_ : option bool)
| InputMeasureAndScrollToKeyboard (left top width height : Q)
| TextInputFocusError (msg : string)
| ComponentWillMount
| ComponentWillUnmount
| KeyboardWillShow (e : KeyboardEvent)
| KeyboardWillHide (e : KeyboardEvent)
| KeyboardDidShow (e : option KeyboardEvent)
| KeyboardDidHide (e : KeyboardEvent).

Inductive Returned :=
| Void
| Boolean (b : bool)
| Node (n : option Z).

Definition returning {A} (f : A -> Returned) (m : M A) : M Returned :=
  a <- m ;; ret (f a).

Definition invoke (c : Call) : M Returned :=
  match c with
  | HandleScrollShouldSetResponder =>
      returning Boolean scrollResponderHandleScrollShouldSetResponder
  | HandleStartShouldSetResponder e =>
      returning Boolean (scrollResponderHandleStartShouldSetResponder e)
  | HandleStartShouldSetResponderCapture e =>
      returning Boolean (scrollResponderHandleStartShouldSetResponderCapture e)
  | HandleResponderReject =>
      returning (fun _ => Void) scrollResponderHandleResponderReject
  | HandleTerminationRequest =>
      returning Boolean scrollResponderHandleTerminationRequest
  | HandleTouchEnd e => returning (fun _ => Void) (scrollResponderHandleTouchEnd e)
  | HandleTouchCancel e => returning (fun _ => Void) (scrollResponderHandleTouchCancel e)
  | HandleResponderRelease e =>
      returning (fun _ => Void) (scrollResponderHandleResponderRelease e)
  | HandleScroll e => returning (fun _ => Void) (scrollResponderHandleScroll e)
  | HandleResponderGrant e =>
      returning (fun _ => Void) (scrollResponderHandleResponderGrant e)
  | HandleScrollBeginDrag e =>
      returning (fun _ => Void) (scrollResponderHandleScrollBeginDrag e)
  | HandleScrollEndDrag e =>
      returning (fun _ => Void) (scrollResponderHandleScrollEndDrag e)
  | HandleMomentumScrollBegin e =>
      returning (fun _ => Void) (scrollResponderHandleMomentumScrollBegin e)
  | HandleMomentumScrollEnd e =>
      returning (fun _ => Void) (scrollResponderHandleMomentumScrollEnd e)
  | HandleTouchStart e => returning (fun _ => Void) (scrollResponderHandleTouchStart e)
  | HandleTouchMove e => returning (fun _ => Void) (scrollResponderHandleTouchMove e)
  | IsAnimating => returning Boolean scrollResponderIsAnimating
  | GetScrollableNode => returning Node scrollResponderGetScrollableNode
  | ScrollTo a => returning (fun _ => Void) (scrollResponderScrollTo a)
  | ScrollToEnd o => returning (fun _ => Void) (scrollResponderScrollToEnd o)
  | ZoomTo r a => returning (fun _ => Void) (scrollResponderZoomTo r a)
  | FlashScrollIndicators =>
      returning (fun _ => Void) scrollResponderFlashScrollIndicators
  | ScrollNativeHandleToKeyboard h o p =>
      returning (fun _ => Void) (scrollResponderScrollNativeHandleToKeyboard h o p)
  | InputMeasureAndScrollToKeyboard l t w h =>
      returning (fun _ => Void) (scrollResponderInputMeasureAndScrollToKeyboard l t w h)
  | TextInputFocusError msg =>
      returning (fun _ => Void) (scrollResponderTextInputFocusError msg)
  | ComponentWillMount => returning (fun _ => Void) UNSAFE_componentWillMount
  | ComponentWillUnmount => returning (fun _ => Void) componentWillUnmount
  | KeyboardWillShow e => returning (fun _ => Void) (scrollResponderKeyboardWillShow e)
  | KeyboardWillHide e => returning (fun _ => Void) (scrollResponderKeyboardWillHide e)
  | KeyboardDidShow e => returning (fun _ => Void) (scrollResponderKeyboardDidShow e)
  | KeyboardDidHide e => returning (fun _ => Void) (scrollResponderKeyboardDidHide e)
  end.

(** The handlers run to completion one after the other; each one sees the
    collaborators as they answer at that time.  An exception leaves the
    assignments made before it in place. *)
Fixpoint run (calls : list (Env * Call)) (this : Instance) : Instance :=
  match calls with
  | [] => this
  | (env, c) :: rest => run rest (after (invoke c env this))
  end.

Definition is_grant (c : Call) : bool :=
  match c with HandleResponderGrant _ => true | _ => false end.

Definition is_scroll (c : Call) : bool :=
  match c with HandleScroll _ => true | _ => false end.

(** The instance of a freshly mounted component. *)
Definition mounted (p : Props) : Instance :=
  {| props := p;
     state := scrollResponderMixinGetInitialState;
     keyboardWillOpenTo := None;
     additionalScrollOffset := 0;
     preventNegativeScrollOffset := None;
     additionalOffset := None;
     _subscriptionKeyboardWillShow := Some keyboardWillShow;
     _subscriptionKeyboardWillHide := Some keyboardWillHide;
     _subscriptionKeyboardDidShow := Some keyboardDidShow;
     _subscriptionKeyboardDidHide := Some keyboardDidHide |}.

(** Whether an effect log holds a blur / a keyboard-dismissed notification. *)
Definition is_blur (x : Effect) : bool :=
  match x with BlurTextInput _ => true | _ => false end.

Definition is_keyboard_dismissed (x : Effect) : bool :=
  match x with CallHost onScrollResponderKeyboardDismissed _ => true | _ => false end.

(** ** What the handlers return and log, as expressions *)

(** The predicate of [scrollResponderIsAnimating], as a proposition over the
    clock and the two time stamps. *)
Definition animating_at (now : Q) (st : State) : Prop :=
  now - lastMomentumScrollEndTime st < 16
  \/ lastMomentumScrollEndTime st < lastMomentumScrollBeginTime st.

(** The value [scrollResponderIsAnimating] returns. *)
Definition is_animating (env : Env) (this : Instance) : bool :=
  Js.lt (performanceNow env - lastMomentumScrollEndTime (state this))
        IS_ANIMATING_TOUCH_START_THRESHOLD_MS
  || Js.lt (lastMomentumScrollEndTime (state this))
           (lastMomentumScrollBeginTime (state this)).

(** The log of [this.props.cb && this.props.cb(arg)]. *)
Definition host_call (this : Instance) (cb : HostCallback) (arg : Payload) : list Effect :=
  if supplies (props this) cb then [CallHost cb arg] else [].

Definition pan_disabled (this : Instance) : bool :=
  Js.to_bool (disableScrollViewPanResponder (props this)).

(** The value of [scrollResponderHandleStartShouldSetResponder]. *)
Definition start_should_set (env : Env) (this : Instance) (e : PressEvent) : bool :=
  negb (pan_disabled this)
  && taps_is (keyboardShouldPersistTaps (props this)) "handled"
  && match currentlyFocusedField env with
     | Some focused => Js.strict_neq (target e) focused
     | None => false
     end.

(** [e.target && !TextInputState.isTextInput(e.target)] *)
Definition target_is_not_an_input (env : Env) (e : PressEvent) : bool :=
  match target e with
  | Some t => negb (t =? 0)%Z && negb (isTextInput env t)
  | None => false
  end.

Definition never_persist (p : TapsPolicy) : bool :=
  taps_falsy p || taps_is p "never".

(** The value of [scrollResponderHandleStartShouldSetResponderCapture]. *)
Definition capture_should_set (env : Env) (this : Instance) (e : PressEvent) : bool :=
  is_animating env this
  || (negb (pan_disabled this)
      && (never_persist (keyboardShouldPersistTaps (props this))
          && match currentlyFocusedField env with Some _ => true | None => false end
          && target_is_not_an_input env e)).

(** The five-way conjunction of [scrollResponderHandleResponderRelease]. *)
Definition tap_dismisses (env : Env) (this : Instance) (e : PressEvent) : bool :=
  match currentlyFocusedField env with
  | Some focused =>
      negb (taps_is_true (keyboardShouldPersistTaps (props this)))
      && negb (taps_is (keyboardShouldPersistTaps (props this)) "always")
      && Js.strict_neq (target e) focused
      && negb (observedScrollSinceBecomingResponder (state this))
      && negb (becameResponderWhileAnimating (state this))
  | None => false
  end.

(** The five conjuncts of the release handler. *)
Definition release_conjuncts (env : Env) (this : Instance) (e : PressEvent) : Prop :=
  (keyboardShouldPersistTaps (props this) <> TapsBool true
   /\ keyboardShouldPersistTaps (props this) <> TapsString "always")
  /\ (exists focused, currentlyFocusedField env = Some focused
                      /\ target e <> Some focused)
  /\ observedScrollSinceBecomingResponder (state this) = false
  /\ becameResponderWhileAnimating (state this) = false.

Definition scroll_to_arguments (a : ScrollToArguments) : list Arg :=
  match a with
  | Positional x y animated =>
      [NumArg (Js.or_zero (Some x)); NumArg (Js.or_zero y); BoolArg (Js.not_false animated)]
  | Options (Some o) =>
      [NumArg (Js.or_zero (opt_x o)); NumArg (Js.or_zero (opt_y o));
       BoolArg (Js.not_false (opt_animated o))]
  | Options None => [NumArg 0; NumArg 0; BoolArg true]
  end.

Definition scroll_to_warning (a : ScrollToArguments) : list Effect :=
  match a with
  | Positional _ _ _ => [ConsoleWarn (warning_text DeprecatedScrollToArguments)]
  | Options _ => []
  end.

(** [keyboardScreenY] of the measurement callback. *)
Definition keyboardScreenY (env : Env) (this : Instance) : Q :=
  match keyboardWillOpenTo this with
  | Some k => endCoordinates_screenY k
  | None => windowHeight env
  end.

(** [scrollOffsetY] as the callback passes it to [scrollResponderScrollTo]. *)
Definition scrollOffsetY (top height : Q) (env : Env) (this : Instance) : Q :=
  let raw := top - keyboardScreenY env this + height + additionalScrollOffset this in
  if Js.to_bool (preventNegativeScrollOffset this) then Js.Math_max 0 raw else raw.

Definition observed (this : Instance) : bool :=
  observedScrollSinceBecomingResponder (state this).

Definition no_grant (calls : list (Env * Call)) : bool :=
  forallb (fun ec => negb (is_grant (snd ec))) calls.

Definition scroll_handled (calls : list (Env * Call)) : bool :=
  existsb (fun ec => is_scroll (snd ec)) calls.

(** ** Some hosts, collaborators and events *)

(** A host with the pan responder disabled, policy ['never'] and no
    callbacks. *)
Definition props_disabled_never : Props :=
  {| disableScrollViewPanResponder := Some true;
     keyboardShouldPersistTaps := TapsString "never";
     supplies := fun _ => false |}.

(** The collaborators when the clock reads [now]: input 1 is focused and is
    the only text input, the window is 800 high, the scrollable node is 5. *)
Definition env_at (now : Q) : Env :=
  {| performanceNow := now;
     currentlyFocusedField := Some 1%Z;
     isTextInput := fun h => (h =? 1)%Z;
     windowHeight := 800;
     scrollableNode := Some 5%Z;
     platformIsIOS := true;
     getNativeScrollRef := Some 5%Z;
     innerViewNode := Some 6%Z |}.

(** A press whose target is the view [t], with one touch down. *)
Definition press_on (t : Z) : PressEvent := {| target := Some t; touches_length := 1 |}.

(** A host with the default pan responder, policy ['never'] and every
    callback supplied. *)
Definition props_never : Props :=
  {| disableScrollViewPanResponder := None;
     keyboardShouldPersistTaps := TapsString "never";
     supplies := fun _ => true |}.

(** A keyboard frame with its top at 200, a target at [top = 100] of height
    50, and an additional offset of 10: the raw offset is -40. *)
Definition with_keyboard_at_200 (prevent : option bool) : Instance :=
  after (scrollResponderScrollNativeHandleToKeyboard (NumberHandle 7) (Some 10) prevent
           (env_at 0)
           (after (scrollResponderKeyboardWillShow
                     {| endCoordinates_screenY := 200 |} (env_at 0)
                     (mounted props_never)))).

(** A request to scroll node 7 into view with an additional offset of 50. *)
Definition offset_50_requested : Instance :=
  after (scrollResponderScrollNativeHandleToKeyboard (NumberHandle 7) (Some 50) (Some true)
           (env_at 0) (mounted props_never)).

Definition a_scroll_event : ScrollEvent := {| velocity := Some (0, 3) |}.

Definition a_press_event : PressEvent := press_on 2.

(** ** The mixin as a whole: what a call leaves behind *)

(** The instance a call leaves behind. *)
Definition instance_after (c : Call) (env : Env) (this : Instance) : Instance :=
  match c with
  | HandleTouchStart _ => set_state (set_isTouching true) this
  | HandleTouchEnd e =>
      set_state (set_isTouching (negb (Nat.eqb (touches_length e) 0))) this
  | HandleTouchCancel _ => set_state (set_isTouching false) this
  | HandleScroll _ => set_state (set_observedScrollSinceBecomingResponder true) this
  | HandleResponderGrant _ =>
      set_state (set_becameResponderWhileAnimating (is_animating env this))
        (set_state (set_observedScrollSinceBecomingResponder false) this)
  | HandleMomentumScrollBegin _ =>
      set_state (set_lastMomentumScrollBeginTime (performanceNow env)) this
  | HandleMomentumScrollEnd _ =>
      set_state (set_lastMomentumScrollEndTime (performanceNow env)) this
  | ScrollNativeHandleToKeyboard _ offset prevent =>
      set_preventNegativeScrollOffset (Js.to_bool prevent)
        (set_additionalScrollOffset (Js.or_zero offset) this)
  | InputMeasureAndScrollToKeyboard _ _ _ _ =>
      match scrollableNode env with
      | Some _ => set_preventNegativeScrollOffset false (set_additionalOffset 0 this)
      | None => this
      end
  | ComponentWillMount =>
      set_subscriptions (Some keyboardWillShow) (Some keyboardWillHide)
        (Some keyboardDidShow) (Some keyboardDidHide)
        (set_additionalScrollOffset 0 (set_keyboardWillOpenTo None this))
  | KeyboardWillShow e => set_keyboardWillOpenTo (Some e) this
  | KeyboardDidShow (Some e) => set_keyboardWillOpenTo (Some e) this
  | KeyboardWillHide _ | KeyboardDidHide _ => set_keyboardWillOpenTo None this
  | _ => this
  end.

(** The handlers that assign a field of [this.state]. *)
Definition writes_state (c : Call) : bool :=
  match c with
  | HandleTouchStart _ | HandleTouchEnd _ | HandleTouchCancel _
  | HandleScroll _ | HandleResponderGrant _
  | HandleMomentumScrollBegin _ | HandleMomentumScrollEnd _ => true
  | _ => false
  end.

(** What a touch handler assigns to [isTouching]. *)
Definition touch_outcome (c : Call) : option bool :=
  match c with
  | HandleTouchStart _ => Some true
  | HandleTouchEnd e => Some (negb (Nat.eqb (touches_length e) 0))
  | HandleTouchCancel _ => Some false
  | _ => None
  end.

Definition no_touch (calls : list (Env * Call)) : bool :=
  forallb (fun ec => match touch_outcome (snd ec) with Some _ => false | None => true end)
          calls.

Definition is_momentum_begin (c : Call) : bool :=
  match c with HandleMomentumScrollBegin _ => true | _ => false end.

Definition is_momentum_end (c : Call) : bool :=
  match c with HandleMomentumScrollEnd _ => true | _ => false end.

Definition no_momentum_begin (calls : list (Env * Call)) : bool :=
  forallb (fun ec => negb (is_momentum_begin (snd ec))) calls.

Definition no_momentum_end (calls : list (Env * Call)) : bool :=
  forallb (fun ec => negb (is_momentum_end (snd ec))) calls.

(** What a call assigns to [this.keyboardWillOpenTo], if it assigns it. *)
Definition keyboard_outcome (c : Call) : option (option KeyboardEvent) :=
  match c with
  | KeyboardWillShow e => Some (Some e)
  | KeyboardDidShow (Some e) => Some (Some e)
  | KeyboardWillHide _ | KeyboardDidHide _ => Some None
  | ComponentWillMount => Some None
  | _ => None
  end.

Definition no_keyboard (calls : list (Env * Call)) : bool :=
  forallb (fun ec => match keyboard_outcome (snd ec) with Some _ => false | None => true end)
          calls.

(** The methods that send a command to the native scroll view. *)
Definition is_command (c : Call) : bool :=
  match c with
  | ScrollTo _ | ScrollToEnd _ | FlashScrollIndicators
  | InputMeasureAndScrollToKeyboard _ _ _ _ => true
  | _ => false
  end.

Definition is_dispatch (x : Effect) : bool :=
  match x with DispatchViewManagerCommand _ _ _ => true | _ => false end.

Definition is_warning (x : Effect) : bool :=
  match x with ConsoleWarn _ => true | _ => false end.

(** [scrollResponderZoomTo]: the rect, the flag and the warning after the
    ['animated' in rect] test. *)
Definition zoom_rect (rect : Rect) : Rect :=
  match rect_animated rect with
  | Some _ =>
      {| rect_x := rect_x rect; rect_y := rect_y rect;
         rect_width := rect_width rect; rect_height := rect_height rect;
         rect_animated := None |}
  | None => rect
  end.

Definition zoom_animated (rect : Rect) (animated : option bool) : option bool :=
  match rect_animated rect with
  | Some v => v
  | None => animated
  end.

Definition zoom_warning (rect : Rect) (animated : option bool) : list Effect :=
  match rect_animated rect, animated with
  | None, Some _ => [ConsoleWarn (warning_text DeprecatedZoomToAnimatedArgument)]
  | _, _ => []
  end.

(** What [componentWillUnmount] does with one subscription field. *)
Definition removal (s : option KeyboardEventName) : list Effect :=
  match s with
  | Some name => [SubscriptionRemove name]
  | None => []
  end.

(** The instance before [UNSAFE_componentWillMount]: the initial state, no
    subscription, and the fields the mount assigns still anything. *)
Definition unmounted (p : Props) (k : option KeyboardEvent) (a : Q) : Instance :=
  {| props := p;
     state := scrollResponderMixinGetInitialState;
     keyboardWillOpenTo := k;
     additionalScrollOffset := a;
     preventNegativeScrollOffset := None;
     additionalOffset := None;
     _subscriptionKeyboardWillShow := None;
     _subscriptionKeyboardWillHide := None;
     _subscriptionKeyboardDidShow := None;
     _subscriptionKeyboardDidHide := None |}.

(** A host with policy ['handled'] and every callback supplied. *)
Definition props_handled : Props :=
  {| disableScrollViewPanResponder := None;
     keyboardShouldPersistTaps := TapsString "handled";
     supplies := fun _ => true |}.

Definition a_keyboard_event : KeyboardEvent := {| endCoordinates_screenY := 500 |}.

Definition a_rect (animated : option (option bool)) : Rect :=
  {| rect_x := 0; rect_y := 0; rect_width := 100; rect_height := 50;
     rect_animated := animated |}.




Definition is_add_listener (x : Effect) : bool :=
  match x with KeyboardAddListener _ => true | _ => false end.

(** The four subscription fields of an instance. *)
Definition subscriptions (this : Instance) : list (option KeyboardEventName) :=
  [_subscriptionKeyboardWillShow this; _subscriptionKeyboardWillHide this;
   _subscriptionKeyboardDidShow this; _subscriptionKeyboardDidHide this].

(** * Properties *)

(** ** Facts about the JS operators *)

Lemma lt_iff (a b : Q) : Js.lt a b = true <-> a < b.
Proof.
  unfold Js.lt. rewrite negb_true_iff.
  split.
  - intros H. apply Qnot_le_lt. intros Hle.
    apply Qle_bool_iff in Hle. congruence.
  - intros H. destruct (Qle_bool b a) eqn:E; [|reflexivity].
    apply Qle_bool_iff in E. exfalso. exact (Qlt_not_le _ _ H E).
Qed.

Lemma lt_false_iff (a b : Q) : Js.lt a b = false <-> ~ a < b.
Proof.
  rewrite <- lt_iff. destruct (Js.lt a b); split; congruence.
Qed.

Lemma Math_max_is_Qmax (a b : Q) : Js.Math_max a b == Qmax a b.
Proof.
  unfold Js.Math_max. destruct (Qle_bool a b) eqn:E.
  - apply Qle_bool_iff in E. symmetry. apply Q.max_r. exact E.
  - symmetry. apply Q.max_l. apply Qlt_le_weak. apply Qnot_le_lt.
    intros H. apply Qle_bool_iff in H. congruence.
Qed.

Lemma or_zero_some (q : Q) : Js.or_zero (Some q) == q.
Proof.
  unfold Js.or_zero. destruct (Qeq_bool q 0) eqn:E.
  - apply Qeq_bool_iff in E. symmetry. exact E.
  - reflexivity.
Qed.

Lemma strict_neq_iff (t : option Z) (f : Z) :
  Js.strict_neq t f = true <-> t <> Some f.
Proof.
  destruct t as [n|]; simpl.
  - rewrite negb_true_iff, Z.eqb_neq. split; congruence.
  - split; [discriminate | reflexivity].
Qed.

Lemma to_bool_iff (x : option bool) : Js.to_bool x = true <-> x = Some true.
Proof.
  destruct x as [[|]|]; simpl; split; congruence.
Qed.

Lemma taps_is_iff (p : TapsPolicy) (s : string) :
  taps_is p s = true <-> p = TapsString s.
Proof.
  destruct p; simpl; try (split; congruence).
  rewrite String.eqb_eq. split; congruence.
Qed.

Lemma taps_is_true_iff (p : TapsPolicy) :
  taps_is_true p = true <-> p = TapsBool true.
Proof.
  destruct p as [| |[|]|]; simpl; split; congruence.
Qed.

(** ** The animating predicate *)

Lemma scrollResponderIsAnimating_run (env : Env) (this : Instance) :
  scrollResponderIsAnimating env this = (Normal (is_animating env this), this, []).
Proof. reflexivity. Qed.

Lemma is_animating_iff (env : Env) (this : Instance) :
  is_animating env this = true <-> animating_at (performanceNow env) (state this).
Proof.
  unfold is_animating, animating_at, IS_ANIMATING_TOUCH_START_THRESHOLD_MS.
  rewrite orb_true_iff, !lt_iff. reflexivity.
Qed.


(** ** Closed forms of the handlers *)

Lemma forward_run (cb : HostCallback) (arg : Payload) (env : Env) (this : Instance) :
  forward cb arg env this = (Normal tt, this, host_call this cb arg).
Proof.
  unfold forward, host_call, bind, this_, when, emit, ret.
  destruct (supplies (props this) cb); reflexivity.
Qed.

Ltac run_forward :=
  unfold bind, assign, emit, ask, this_, ret; rewrite ?forward_run; cbn.

Lemma scrollResponderHandleTouchStart_run e env this :
  scrollResponderHandleTouchStart e env this
  = (Normal tt, set_state (set_isTouching true) this,
     host_call this onTouchStart (PressPayload e)).
Proof. unfold scrollResponderHandleTouchStart. run_forward. reflexivity. Qed.

Lemma scrollResponderHandleTouchMove_run e env this :
  scrollResponderHandleTouchMove e env this
  = (Normal tt, this, host_call this onTouchMove (PressPayload e)).
Proof. unfold scrollResponderHandleTouchMove. run_forward. reflexivity. Qed.

Lemma scrollResponderHandleTouchEnd_run e env this :
  scrollResponderHandleTouchEnd e env this
  = (Normal tt,
     set_state (set_isTouching (negb (Nat.eqb (touches_length e) 0))) this,
     host_call this onTouchEnd (PressPayload e)).
Proof. unfold scrollResponderHandleTouchEnd. run_forward. reflexivity. Qed.

Lemma scrollResponderHandleTouchCancel_run e env this :
  scrollResponderHandleTouchCancel e env this
  = (Normal tt, set_state (set_isTouching false) this,
     host_call this onTouchCancel (PressPayload e)).
Proof. unfold scrollResponderHandleTouchCancel. run_forward. reflexivity. Qed.

Lemma scrollResponderHandleScroll_run e env this :
  scrollResponderHandleScroll e env this
  = (Normal tt, set_state (set_observedScrollSinceBecomingResponder true) this,
     host_call this onScroll (ScrollPayload e)).
Proof. unfold scrollResponderHandleScroll. run_forward. reflexivity. Qed.

Lemma scrollResponderHandleResponderGrant_run e env this :
  scrollResponderHandleResponderGrant e env this
  = (Normal tt,
     set_state (set_becameResponderWhileAnimating (is_animating env this))
       (set_state (set_observedScrollSinceBecomingResponder false) this),
     host_call this onResponderGrant (ScrollPayload e)).
Proof.
  unfold scrollResponderHandleResponderGrant. run_forward.
  rewrite app_nil_r. reflexivity.
Qed.

Lemma scrollResponderHandleScrollBeginDrag_run e env this :
  scrollResponderHandleScrollBeginDrag e env this
  = (Normal tt, this,
     FrameRateBeginScroll :: host_call this onScrollBeginDrag (ScrollPayload e)).
Proof. unfold scrollResponderHandleScrollBeginDrag. run_forward. reflexivity. Qed.

Lemma scrollResponderHandleScrollEndDrag_run e env this :
  scrollResponderHandleScrollEndDrag e env this
  = (Normal tt, this,
     (if negb (is_animating env this) && no_velocity (velocity e)
      then [FrameRateEndScroll] else [])
     ++ host_call this onScrollEndDrag (ScrollPayload e)).
Proof.
  unfold scrollResponderHandleScrollEndDrag, bind.
  rewrite scrollResponderIsAnimating_run. cbv beta iota.
  destruct (negb (is_animating env this) && no_velocity (velocity e));
    unfold when, emit, ret; rewrite forward_run; reflexivity.
Qed.

Lemma scrollResponderHandleMomentumScrollBegin_run e env this :
  scrollResponderHandleMomentumScrollBegin e env this
  = (Normal tt,
     set_state (set_lastMomentumScrollBeginTime (performanceNow env)) this,
     host_call this onMomentumScrollBegin (ScrollPayload e)).
Proof. unfold scrollResponderHandleMomentumScrollBegin. run_forward. reflexivity. Qed.

Lemma scrollResponderHandleMomentumScrollEnd_run e env this :
  scrollResponderHandleMomentumScrollEnd e env this
  = (Normal tt,
     set_state (set_lastMomentumScrollEndTime (performanceNow env)) this,
     FrameRateEndScroll :: host_call this onMomentumScrollEnd (ScrollPayload e)).
Proof. unfold scrollResponderHandleMomentumScrollEnd. run_forward. reflexivity. Qed.

Lemma scrollResponderKeyboardWillShow_run e env this :
  scrollResponderKeyboardWillShow e env this
  = (Normal tt, set_keyboardWillOpenTo (Some e) this,
     host_call this onKeyboardWillShow (KeyboardPayload (Some e))).
Proof. unfold scrollResponderKeyboardWillShow. run_forward. reflexivity. Qed.

Lemma scrollResponderKeyboardWillHide_run e env this :
  scrollResponderKeyboardWillHide e env this
  = (Normal tt, set_keyboardWillOpenTo None this,
     host_call this onKeyboardWillHide (KeyboardPayload (Some e))).
Proof. unfold scrollResponderKeyboardWillHide. run_forward. reflexivity. Qed.

Lemma scrollResponderKeyboardDidShow_run e env this :
  scrollResponderKeyboardDidShow e env this
  = (Normal tt,
     match e with Some k => set_keyboardWillOpenTo (Some k) this | None => this end,
     host_call this onKeyboardDidShow (KeyboardPayload e)).
Proof.
  unfold scrollResponderKeyboardDidShow.
  destruct e; run_forward; reflexivity.
Qed.

Lemma scrollResponderKeyboardDidHide_run e env this :
  scrollResponderKeyboardDidHide e env this
  = (Normal tt, set_keyboardWillOpenTo None this,
     host_call this onKeyboardDidHide (KeyboardPayload (Some e))).
Proof. unfold scrollResponderKeyboardDidHide. run_forward. reflexivity. Qed.

(** [mounted p] is what [UNSAFE_componentWillMount] makes of the initial
    state. *)
Lemma UNSAFE_componentWillMount_mounted (p : Props) (env : Env) (k : option KeyboardEvent)
    (a : Q) :
  after (UNSAFE_componentWillMount env
           {| props := p;
              state := scrollResponderMixinGetInitialState;
              keyboardWillOpenTo := k;
              additionalScrollOffset := a;
              preventNegativeScrollOffset := None;
              additionalOffset := None;
              _subscriptionKeyboardWillShow := None;
              _subscriptionKeyboardWillHide := None;
              _subscriptionKeyboardDidShow := None;
              _subscriptionKeyboardDidHide := None |})
  = mounted p.
Proof.
  unfold UNSAFE_componentWillMount, bind, this_, console_warn, assign, emit, ret.
  cbn. destruct (keyboardShouldPersistTaps p); reflexivity.
Qed.

(** Inside the 16 ms window after a recorded momentum end the predicate
    holds; once 16 ms have passed and no momentum began after that end, it
    does not. *)
Lemma is_animating_after_momentum_end (e : ScrollEvent) (env0 env1 : Env) (this : Instance) :
  let this1 := after (scrollResponderHandleMomentumScrollEnd e env0 this) in
  (performanceNow env1 - performanceNow env0 < 16 -> is_animating env1 this1 = true)
  /\ (16 <= performanceNow env1 - performanceNow env0 ->
      lastMomentumScrollBeginTime (state this) <= performanceNow env0 ->
      is_animating env1 this1 = false).
Proof.
  rewrite scrollResponderHandleMomentumScrollEnd_run. cbn. split.
  - intros H. apply is_animating_iff. left. exact H.
  - intros H Hb. destruct (is_animating env1 _) eqn:E; [|reflexivity].
    apply is_animating_iff in E. destruct E as [E|E]; cbn in E.
    + exfalso. exact (Qlt_not_le _ _ E H).
    + exfalso. exact (Qlt_not_le _ _ E Hb).
Qed.

(** ** The responder handshake *)

Lemma scrollResponderHandleScrollShouldSetResponder_run env this :
  scrollResponderHandleScrollShouldSetResponder env this
  = (Normal (negb (pan_disabled this) && isTouching (state this)), this, []).
Proof.
  unfold scrollResponderHandleScrollShouldSetResponder, panResponderDisabled,
    pan_disabled, bind, this_, ret.
  destruct (Js.to_bool _); reflexivity.
Qed.

Lemma scrollResponderHandleStartShouldSetResponder_run e env this :
  scrollResponderHandleStartShouldSetResponder e env this
  = (Normal (start_should_set env this e), this, []).
Proof.
  unfold scrollResponderHandleStartShouldSetResponder, panResponderDisabled,
    start_should_set, pan_disabled, bind, this_, ask, ret.
  destruct (Js.to_bool _); cbn; [reflexivity|].
  destruct (currentlyFocusedField env) as [f|]; cbn.
  - destruct (taps_is _ _ && Js.strict_neq _ _) eqn:E; cbn; rewrite <- E; reflexivity.
  - rewrite andb_false_r. reflexivity.
Qed.

Lemma scrollResponderHandleStartShouldSetResponderCapture_run e env this :
  scrollResponderHandleStartShouldSetResponderCapture e env this
  = (Normal (capture_should_set env this e), this, []).
Proof.
  unfold scrollResponderHandleStartShouldSetResponderCapture, capture_should_set, bind.
  rewrite scrollResponderIsAnimating_run. cbv beta iota.
  destruct (is_animating env this); [reflexivity|].
  unfold panResponderDisabled, pan_disabled, never_persist, target_is_not_an_input,
    this_, ask, ret. cbn.
  destruct (Js.to_bool _); cbn; [reflexivity|].
  destruct (currentlyFocusedField env) as [f|]; cbn.
  - destruct (target e) as [t|]; cbn.
    + destruct (taps_falsy _ || taps_is _ _); cbn; [|reflexivity].
      destruct (t =? 0)%Z; cbn; [reflexivity|].
      destruct (isTextInput env t); reflexivity.
    + rewrite !andb_false_r. reflexivity.
  - rewrite andb_false_r. reflexivity.
Qed.

Lemma scrollResponderHandleTerminationRequest_run env this :
  scrollResponderHandleTerminationRequest env this
  = (Normal (negb (observedScrollSinceBecomingResponder (state this))), this, []).
Proof. reflexivity. Qed.

Lemma scrollResponderHandleResponderRelease_run e env this :
  scrollResponderHandleResponderRelease e env this
  = (Normal tt, this,
     host_call this onResponderRelease (PressPayload e)
     ++ match currentlyFocusedField env with
        | Some focused =>
            if tap_dismisses env this e
            then host_call this onScrollResponderKeyboardDismissed (PressPayload e)
                 ++ [BlurTextInput focused]
            else []
        | None => []
        end).
Proof.
  unfold scrollResponderHandleResponderRelease, tap_dismisses, bind.
  rewrite forward_run. unfold ask, this_. cbv beta iota.
  destruct (currentlyFocusedField env) as [f|]; [|reflexivity].
  destruct (_ && _ && _ && _ && _); unfold when, bind, emit, ret.
  - rewrite forward_run. reflexivity.
  - reflexivity.
Qed.


(** C10.  The bubble-phase start handler
    [scrollResponderHandleStartShouldSetResponder] returns [true] exactly when
    the pan responder is enabled, the tap-dismiss policy equals ['handled'],
    a text input is currently focused and the event target differs from that
    focused input; in every other case, whatever [isTouching] is, it returns
    [false]. *)
Theorem scrollResponderHandleStartShouldSetResponder_iff
    (e : PressEvent) (env : Env) (this : Instance) :
  let r := scrollResponderHandleStartShouldSetResponder e env this in
  let holds :=
    disableScrollViewPanResponder (props this) <> Some true
    /\ keyboardShouldPersistTaps (props this) = TapsString "handled"
    /\ exists focused, currentlyFocusedField env = Some focused
                       /\ target e <> Some focused in
  (completion r = Normal true <-> holds)
  /\ (completion r = Normal false <-> ~ holds)
  /\ after r = this
  /\ effects r = [].
Proof.
  rewrite scrollResponderHandleStartShouldSetResponder_run. cbn.
  assert (H : start_should_set env this e = true <->
              disableScrollViewPanResponder (props this) <> Some true
              /\ keyboardShouldPersistTaps (props this) = TapsString "handled"
              /\ exists focused, currentlyFocusedField env = Some focused
                                 /\ target e <> Some focused).
  { unfold start_should_set, pan_disabled.
    rewrite !andb_true_iff, negb_true_iff, taps_is_iff.
    rewrite <- not_true_iff_false, to_bool_iff.
    destruct (currentlyFocusedField env) as [f|].
    - rewrite strict_neq_iff. split.
      + intros [[H1 H2] H3]. repeat split; auto. exists f. auto.
      + intros [H1 [H2 [f' [Hf H3]]]]. inversion Hf; subst. auto.
    - split.
      + intros [_ H]. discriminate.
      + intros [_ [_ [f' [Hf _]]]]. discriminate. }
  destruct (start_should_set env this e).
  - assert (Hh := proj1 H eq_refl).
    repeat split; try congruence; intros; try assumption; tauto.
  - assert (Hh : ~ (disableScrollViewPanResponder (props this) <> Some true
              /\ keyboardShouldPersistTaps (props this) = TapsString "handled"
              /\ exists focused, currentlyFocusedField env = Some focused
                                 /\ target e <> Some focused)).
    { intros Hc. apply H in Hc. discriminate. }
    repeat split; try congruence; intros; try assumption; tauto.
Qed.

(** [isTouching] plays no part in the start handler. *)
Lemma scrollResponderHandleStartShouldSetResponder_ignores_isTouching
    (e : PressEvent) (env : Env) (this : Instance) (b : bool) :
  completion (scrollResponderHandleStartShouldSetResponder e env
                (set_state (set_isTouching b) this))
  = completion (scrollResponderHandleStartShouldSetResponder e env this).
Proof.
  rewrite !scrollResponderHandleStartShouldSetResponder_run. reflexivity.
Qed.

(** What the capture handler returns, as a proposition. *)
Lemma capture_should_set_iff (env : Env) (this : Instance) (e : PressEvent) :
  capture_should_set env this e = true
  <-> animating_at (performanceNow env) (state this)
      \/ (disableScrollViewPanResponder (props this) <> Some true
          /\ (taps_falsy (keyboardShouldPersistTaps (props this)) = true
              \/ keyboardShouldPersistTaps (props this) = TapsString "never")
          /\ currentlyFocusedField env <> None
          /\ exists t, target e = Some t /\ t <> 0%Z /\ isTextInput env t = false).
Proof.
  unfold capture_should_set, never_persist, target_is_not_an_input, pan_disabled.
  rewrite orb_true_iff, !andb_true_iff, orb_true_iff, is_animating_iff, taps_is_iff.
  rewrite negb_true_iff, <- not_true_iff_false, to_bool_iff.
  split; (intros [H|H]; [left; exact H | right]).
  - destruct H as [Hd [[Hp Hf] Ht]]. repeat split; auto.
    + destruct (currentlyFocusedField env); congruence.
    + destruct (target e) as [t|]; [|discriminate].
      apply andb_true_iff in Ht. destruct Ht as [Hz Hi].
      exists t. rewrite negb_true_iff in Hz, Hi. apply Z.eqb_neq in Hz. auto.
  - destruct H as [Hd [Hp [Hf [t [Ht [Hz Hi]]]]]]. repeat split; auto.
    + destruct (currentlyFocusedField env); congruence.
    + rewrite Ht, Hi. apply Z.eqb_neq in Hz. rewrite Hz. reflexivity.
Qed.

(** C3, as stated, fails: with the pan responder disabled and the surface
    animating (touch start 10 ms after a momentum end at 0), the capture
    handler returns [true]. *)
Lemma capture_disabled_while_animating :
  disableScrollViewPanResponder (props (mounted props_disabled_never)) = Some true
  /\ completion (scrollResponderHandleStartShouldSetResponderCapture (press_on 2)
                   (env_at 10) (mounted props_disabled_never))
     = Normal true.
Proof. split; reflexivity. Qed.

(** C3, amended.  With the pan responder disabled
    ([disableScrollViewPanResponder] is [true]) the capture handler returns
    [false] whenever [scrollResponderIsAnimating()] is false, whatever the
    event, the policy and the focus are; while the surface is animating it
    returns [true] all the same. *)
Theorem capture_disabled_returns_false_unless_animating
    (e : PressEvent) (env : Env) (this : Instance) :
  disableScrollViewPanResponder (props this) = Some true ->
  let r := scrollResponderHandleStartShouldSetResponderCapture e env this in
  (~ animating_at (performanceNow env) (state this) -> completion r = Normal false)
  /\ (animating_at (performanceNow env) (state this) -> completion r = Normal true).
Proof.
  intros Hd. rewrite scrollResponderHandleStartShouldSetResponderCapture_run. cbn.
  split; intros H.
  - destruct (capture_should_set env this e) eqn:E; [|reflexivity].
    apply capture_should_set_iff in E. destruct E as [E|[E _]]; [tauto|congruence].
  - assert (E : capture_should_set env this e = true)
      by (apply capture_should_set_iff; left; exact H).
    rewrite E. reflexivity.
Qed.

Lemma capture_disabled_returns_false_unless_animating_witness :
  completion (scrollResponderHandleStartShouldSetResponderCapture (press_on 2)
                (env_at 20) (mounted props_disabled_never))
  = Normal false.
Proof.
  apply (capture_disabled_returns_false_unless_animating (press_on 2) (env_at 20)
           (mounted props_disabled_never) eq_refl).
  intros [H|H]; vm_compute in H; discriminate.
Defined.

(** C4, as stated, fails: never-persist policy, a focused input, a target that
    is present and is not an input, yet the handler returns [false], because
    the pan responder is disabled and the surface is not animating. *)
Lemma capture_never_persist_but_disabled :
  keyboardShouldPersistTaps (props (mounted props_disabled_never)) = TapsString "never"
  /\ currentlyFocusedField (env_at 20) = Some 1%Z
  /\ target (press_on 2) = Some 2%Z
  /\ isTextInput (env_at 20) 2 = false
  /\ completion (scrollResponderHandleStartShouldSetResponderCapture (press_on 2)
                   (env_at 20) (mounted props_disabled_never))
     = Normal false.
Proof. repeat split; reflexivity. Qed.

(** C4, amended.  The capture handler returns [true] when
    [scrollResponderIsAnimating()] is true, and also returns [true] when the
    pan responder is not disabled, the tap-dismiss policy is the never-persist
    variant (absent/falsy or ['never']), a text input is currently focused and
    the event target is present (truthy) and is not a text input.  In
    particular a touch start 10 ms after a recorded momentum end yields
    [true]. *)
Theorem capture_returns_true
    (e : PressEvent) (env : Env) (this : Instance) :
  ((animating_at (performanceNow env) (state this)
    \/ (disableScrollViewPanResponder (props this) <> Some true
        /\ (taps_falsy (keyboardShouldPersistTaps (props this)) = true
            \/ keyboardShouldPersistTaps (props this) = TapsString "never")
        /\ currentlyFocusedField env <> None
        /\ exists t, target e = Some t /\ t <> 0%Z /\ isTextInput env t = false)) ->
   completion (scrollResponderHandleStartShouldSetResponderCapture e env this)
   = Normal true)
  /\ forall (se : ScrollEvent) (env0 env1 : Env),
       performanceNow env1 == performanceNow env0 + 10 ->
       completion (scrollResponderHandleStartShouldSetResponderCapture e env1
                     (after (scrollResponderHandleMomentumScrollEnd se env0 this)))
       = Normal true.
Proof.
  split.
  - intros H.
    rewrite scrollResponderHandleStartShouldSetResponderCapture_run. cbn.
    apply capture_should_set_iff in H. rewrite H. reflexivity.
  - intros se env0 env1 Hnow.
    rewrite scrollResponderHandleStartShouldSetResponderCapture_run.
    unfold completion, capture_should_set. cbn [fst].
    destruct (is_animating_after_momentum_end se env0 env1 this) as [Ha _].
    cbv zeta in Ha. rewrite Ha; [reflexivity|].
    rewrite Hnow.
    setoid_replace (performanceNow env0 + 10 - performanceNow env0) with 10 by ring.
    reflexivity.
Qed.

Lemma capture_returns_true_witness :
  completion (scrollResponderHandleStartShouldSetResponderCapture (press_on 2)
                (env_at 20) (mounted props_never))
  = Normal true.
Proof.
  apply (proj1 (capture_returns_true (press_on 2) (env_at 20) (mounted props_never))).
  right. repeat split.
  - discriminate.
  - right. reflexivity.
  - discriminate.
  - exists 2%Z. repeat split. discriminate.
Defined.

(** ** Responder release and the keyboard *)

Lemma tap_dismisses_iff (env : Env) (this : Instance) (e : PressEvent) :
  tap_dismisses env this e = true <-> release_conjuncts env this e.
Proof.
  unfold tap_dismisses, release_conjuncts.
  destruct (currentlyFocusedField env) as [f|].
  - rewrite !andb_true_iff, !negb_true_iff, strict_neq_iff.
    rewrite <- !not_true_iff_false, taps_is_true_iff, taps_is_iff.
    rewrite !not_true_iff_false.
    split.
    + intros [[[[H1 H2] H3] H4] H5]. repeat split; auto. exists f. auto.
    + intros [[H1 H2] [[f' [Hf H3]] [H4 H5]]]. inversion Hf; subst. auto.
  - split; [discriminate|].
    intros [_ [[f' [Hf _]] _]]. discriminate.
Qed.

Lemma host_call_no_blur this cb arg : existsb is_blur (host_call this cb arg) = false.
Proof. unfold host_call. destruct (supplies (props this) cb); reflexivity. Qed.

Lemma host_call_filter_blur this cb arg : filter is_blur (host_call this cb arg) = [].
Proof. unfold host_call. destruct (supplies (props this) cb); reflexivity. Qed.

(** C2.  On responder release the focused input is blurred, and the host is
    notified through [onScrollResponderKeyboardDismissed], if and only if all
    five conjuncts hold: the tap-dismiss policy is neither [true] nor
    ['always'], a text input is focused, the target of the event differs from
    it, no scroll was observed since the grant, and the responder was not
    acquired while animating.  When they hold, the log is the forwarded
    [onResponderRelease], then the notification, then one blur of the focused
    input; when one of them fails, the log is the forwarded
    [onResponderRelease] alone, with no notification and no blur.  The
    notification goes through the optional prop, as every host callback of
    the mixin does: it is in the log when the host supplies the prop. *)
Theorem scrollResponderHandleResponderRelease_dismisses_iff
    (e : PressEvent) (env : Env) (this : Instance) :
  let r := scrollResponderHandleResponderRelease e env this in
  completion r = Normal tt
  /\ after r = this
  /\ (release_conjuncts env this e ->
      exists focused,
        currentlyFocusedField env = Some focused
        /\ effects r
           = host_call this onResponderRelease (PressPayload e)
             ++ host_call this onScrollResponderKeyboardDismissed (PressPayload e)
             ++ [BlurTextInput focused]
        /\ filter is_blur (effects r) = [BlurTextInput focused])
  /\ (~ release_conjuncts env this e ->
      effects r = host_call this onResponderRelease (PressPayload e))
  /\ (existsb is_blur (effects r) = true <-> release_conjuncts env this e)
  /\ (existsb is_keyboard_dismissed (effects r) = true
      <-> release_conjuncts env this e
          /\ supplies (props this) onScrollResponderKeyboardDismissed = true).
Proof.
  rewrite scrollResponderHandleResponderRelease_run.
  unfold completion, after, effects. cbn [fst snd].
  pose proof (tap_dismisses_iff env this e) as Hiff.
  split; [reflexivity|]. split; [reflexivity|].
  destruct (tap_dismisses env this e) eqn:Ed.
  - assert (Hc := proj1 Hiff eq_refl).
    destruct (Hc) as [Hp [[f [Hf Ht]] [Ho Hb]]].
    rewrite Hf.
    split; [|split; [|split]].
    + intros _. exists f. split; [reflexivity|]. split; [reflexivity|].
      rewrite !filter_app, !host_call_filter_blur. reflexivity.
    + intros Hn. contradiction.
    + rewrite !existsb_app, !host_call_no_blur. cbn. tauto.
    + rewrite !existsb_app. unfold host_call.
      destruct (supplies (props this) onResponderRelease);
        destruct (supplies (props this) onScrollResponderKeyboardDismissed);
        cbn; intuition congruence.
  - assert (Hn : ~ release_conjuncts env this e).
    { intros Hc. apply Hiff in Hc. discriminate. }
    assert (Hlog :
      host_call this onResponderRelease (PressPayload e)
      ++ match currentlyFocusedField env with
         | Some _ => []
         | None => []
         end
      = host_call this onResponderRelease (PressPayload e)).
    { destruct (currentlyFocusedField env); apply app_nil_r. }
    rewrite Hlog.
    split; [|split; [|split]].
    + intros Hc. contradiction.
    + intros _. reflexivity.
    + rewrite host_call_no_blur. split; [discriminate | contradiction].
    + unfold host_call. destruct (supplies (props this) onResponderRelease); cbn;
        (split; [discriminate | tauto]).
Qed.

(** The scenario of the release with focused input 1, release target 2,
    policy ['never'], no scroll observed and no animation: the five conjuncts
    hold, the notification fires and input 1 is blurred, once. *)
Lemma scrollResponderHandleResponderRelease_dismisses_iff_witness :
  release_conjuncts (env_at 20) (mounted props_never) (press_on 2)
  /\ exists focused,
       currentlyFocusedField (env_at 20) = Some focused
       /\ effects (scrollResponderHandleResponderRelease (press_on 2) (env_at 20)
                     (mounted props_never))
          = host_call (mounted props_never) onResponderRelease (PressPayload (press_on 2))
            ++ host_call (mounted props_never) onScrollResponderKeyboardDismissed
                 (PressPayload (press_on 2))
            ++ [BlurTextInput focused]
       /\ filter is_blur
            (effects (scrollResponderHandleResponderRelease (press_on 2) (env_at 20)
                        (mounted props_never)))
          = [BlurTextInput focused].
Proof.
  assert (H : release_conjuncts (env_at 20) (mounted props_never) (press_on 2)).
  { repeat split; try discriminate. exists 1%Z. split; [reflexivity | discriminate]. }
  split; [exact H|].
  apply (scrollResponderHandleResponderRelease_dismisses_iff (press_on 2) (env_at 20)
           (mounted props_never)).
  exact H.
Defined.

Lemma scrollResponderHandleResponderRelease_scenario :
  effects (scrollResponderHandleResponderRelease (press_on 2) (env_at 20)
             (mounted props_never))
  = [CallHost onResponderRelease (PressPayload (press_on 2));
     CallHost onScrollResponderKeyboardDismissed (PressPayload (press_on 2));
     BlurTextInput 1].
Proof. reflexivity. Qed.

(** The same release by a host that passes no
    [onScrollResponderKeyboardDismissed]: the input is blurred all the same. *)
Lemma scrollResponderHandleResponderRelease_without_callback :
  effects (scrollResponderHandleResponderRelease (press_on 2) (env_at 20)
             (mounted {| disableScrollViewPanResponder := None;
                         keyboardShouldPersistTaps := TapsString "never";
                         supplies := fun _ => false |}))
  = [BlurTextInput 1].
Proof. reflexivity. Qed.

(** ** Scrolling a target into view above the keyboard *)

Lemma scrollResponderScrollTo_run a env this :
  scrollResponderScrollTo a env this
  = match scrollableNode env with
    | Some node =>
        (Normal tt, this,
         scroll_to_warning a
         ++ [DispatchViewManagerCommand (Some node) scrollTo (scroll_to_arguments a)])
    | None =>
        (Throw "Got unexpected null or undefined", this, scroll_to_warning a)
    end.
Proof.
  unfold scrollResponderScrollTo, scrollResponderGetScrollableNode, console_warn,
    bind, ask, emit, ret, nullthrows, throw.
  destruct a as [x y animated|[o|]]; cbn;
    destruct (scrollableNode env); reflexivity.
Qed.

Lemma scrollResponderInputMeasureAndScrollToKeyboard_run left top width height env this :
  scrollResponderInputMeasureAndScrollToKeyboard left top width height env this
  = match scrollableNode env with
    | Some node =>
        (Normal tt,
         set_preventNegativeScrollOffset false (set_additionalOffset 0 this),
         [DispatchViewManagerCommand (Some node) scrollTo
            [NumArg 0; NumArg (Js.or_zero (Some (scrollOffsetY top height env this)));
             BoolArg true]])
    | None => (Throw "Got unexpected null or undefined", this, [])
    end.
Proof.
  unfold scrollResponderInputMeasureAndScrollToKeyboard, bind, ask, this_.
  cbv beta iota zeta.
  rewrite scrollResponderScrollTo_run.
  unfold scrollOffsetY, keyboardScreenY.
  destruct (scrollableNode env); reflexivity.
Qed.

Lemma scrollResponderScrollNativeHandleToKeyboard_run h offset prevent env this :
  scrollResponderScrollNativeHandleToKeyboard h offset prevent env this
  = (Normal tt,
     set_preventNegativeScrollOffset (Js.to_bool prevent)
       (set_additionalScrollOffset (Js.or_zero offset) this),
     match h with
     | NumberHandle n => [MeasureLayout n (innerViewNode env)]
     | RefHandle r => [MeasureLayoutOfRef r]
     end).
Proof. destruct h; reflexivity. Qed.



(** The same target without the clamp: the offset -40 is issued as it is. *)
Lemma scrollResponderInputMeasureAndScrollToKeyboard_negative :
  effects (scrollResponderInputMeasureAndScrollToKeyboard 0 100 300 50 (env_at 0)
             (with_keyboard_at_200 None))
  = [DispatchViewManagerCommand (Some 5%Z) scrollTo
       [NumArg 0; NumArg (100 - 200 + 50 + 10); BoolArg true]].
Proof. vm_compute. reflexivity. Qed.

(** From the request to the command: the offset and the clamp passed to
    [scrollResponderScrollNativeHandleToKeyboard] are the ones the callback
    uses, when it runs next. *)
Lemma scroll_native_handle_then_measure
    (h : NodeHandle) (offset : option Q) (prevent : option bool)
    (left top width height : Q) (env0 env : Env) (this : Instance) (node : Z) :
  scrollableNode env = Some node ->
  let requested :=
    after (scrollResponderScrollNativeHandleToKeyboard h offset prevent env0 this) in
  let raw := top - keyboardScreenY env this + height + Js.or_zero offset in
  exists y,
    effects (scrollResponderInputMeasureAndScrollToKeyboard left top width height env
               requested)
    = [DispatchViewManagerCommand (Some node) scrollTo [NumArg 0; NumArg y; BoolArg true]]
    /\ y == (if Js.to_bool prevent then Qmax 0 raw else raw).
Proof.
  intros Hnode. cbv zeta.
  rewrite scrollResponderScrollNativeHandleToKeyboard_run.
  rewrite scrollResponderInputMeasureAndScrollToKeyboard_run, Hnode.
  cbn [after effects fst snd].
  eexists. split; [reflexivity|].
  rewrite or_zero_some. unfold scrollOffsetY, keyboardScreenY. cbn.
  destruct (Js.to_bool prevent); [apply Math_max_is_Qmax | reflexivity].
Qed.

(** The callback assigns [this.additionalOffset], a field nothing reads; the
    field the computation reads, [this.additionalScrollOffset], keeps its
    value. *)
Lemma scrollResponderInputMeasureAndScrollToKeyboard_fields
    (left top width height : Q) (env : Env) (this : Instance) :
  let r := scrollResponderInputMeasureAndScrollToKeyboard left top width height env this in
  additionalScrollOffset (after r) = additionalScrollOffset this
  /\ (completion r = Normal tt ->
      additionalOffset (after r) = Some 0
      /\ preventNegativeScrollOffset (after r) = Some false).
Proof.
  rewrite scrollResponderInputMeasureAndScrollToKeyboard_run.
  destruct (scrollableNode env); cbn; split; try reflexivity; try discriminate.
  intros _. split; reflexivity.
Qed.

(** C5, at a failing input.  After
    [scrollResponderScrollNativeHandleToKeyboard(7, 50, true)] and the
    measurement callback [(0, 100, 300, 50)], the callback has completed and
    issued its command, [preventNegativeScrollOffset] is [false], but
    [additionalScrollOffset], the field the computation reads, is still 50:
    the assignment of 0 went to the other field [additionalOffset]. *)
Theorem additionalScrollOffset_not_reset_by_measure_callback :
  let r := scrollResponderInputMeasureAndScrollToKeyboard 0 100 300 50 (env_at 0)
             offset_50_requested in
  completion r = Normal tt
  /\ effects r
     = [DispatchViewManagerCommand (Some 5%Z) scrollTo [NumArg 0; NumArg 0; BoolArg true]]
  /\ additionalScrollOffset (after r) = 50
  /\ ~ additionalScrollOffset (after r) == 0
  /\ additionalOffset (after r) = Some 0
  /\ preventNegativeScrollOffset (after r) = Some false.
Proof.
  cbv zeta. repeat split; try (vm_compute; reflexivity).
  vm_compute. discriminate.
Qed.

(** ** [observedScrollSinceBecomingResponder] along a sequence of calls *)

(** A grant resets the flag, a scroll event sets it, and no other method of
    the mixin touches it. *)
Lemma invoke_observed (c : Call) (env : Env) (this : Instance) :
  observed (after (invoke c env this))
  = if is_grant c then false
    else if is_scroll c then true
    else observed this.
Proof.
  unfold observed.
  destruct c; unfold invoke, returning, bind;
    rewrite ?scrollResponderHandleScrollShouldSetResponder_run,
            ?scrollResponderHandleStartShouldSetResponder_run,
            ?scrollResponderHandleStartShouldSetResponderCapture_run,
            ?scrollResponderHandleTerminationRequest_run,
            ?scrollResponderHandleTouchEnd_run,
            ?scrollResponderHandleTouchCancel_run,
            ?scrollResponderHandleResponderRelease_run,
            ?scrollResponderHandleScroll_run,
            ?scrollResponderHandleResponderGrant_run,
            ?scrollResponderHandleScrollBeginDrag_run,
            ?scrollResponderHandleScrollEndDrag_run,
            ?scrollResponderHandleMomentumScrollBegin_run,
            ?scrollResponderHandleMomentumScrollEnd_run,
            ?scrollResponderHandleTouchStart_run,
            ?scrollResponderHandleTouchMove_run,
            ?scrollResponderIsAnimating_run,
            ?scrollResponderScrollTo_run,
            ?scrollResponderScrollNativeHandleToKeyboard_run,
            ?scrollResponderInputMeasureAndScrollToKeyboard_run,
            ?scrollResponderKeyboardWillShow_run,
            ?scrollResponderKeyboardWillHide_run,
            ?scrollResponderKeyboardDidShow_run,
            ?scrollResponderKeyboardDidHide_run;
    try reflexivity;
    try (destruct (scrollableNode env); reflexivity).
  - (* scrollResponderZoomTo *)
    unfold scrollResponderZoomTo, bind, ask, invariant, console_warn, when, emit, ret, throw.
    destruct (platformIsIOS env); [|reflexivity].
    destruct (rect_animated rect); [|destruct animated]; cbn;
      destruct (getNativeScrollRef env); reflexivity.
  - (* UNSAFE_componentWillMount *)
    unfold UNSAFE_componentWillMount, bind, this_, console_warn, assign, emit, ret.
    destruct (keyboardShouldPersistTaps (props this)); reflexivity.
  - (* componentWillUnmount *)
    unfold componentWillUnmount, remove_subscription, bind, this_, emit, ret.
    destruct (_subscriptionKeyboardWillShow this),
             (_subscriptionKeyboardWillHide this),
             (_subscriptionKeyboardDidShow this),
             (_subscriptionKeyboardDidHide this); reflexivity.
  - (* scrollResponderKeyboardDidShow *)
    destruct e; reflexivity.
Qed.

Lemma run_app (pre post : list (Env * Call)) (this : Instance) :
  run (pre ++ post) this = run post (run pre this).
Proof.
  revert this. induction pre as [|[env c] pre IH]; intros this; cbn.
  - reflexivity.
  - apply IH.
Qed.

Lemma run_no_grant (post : list (Env * Call)) (this : Instance) :
  no_grant post = true ->
  observed (run post this) = observed this || scroll_handled post.
Proof.
  revert this. induction post as [|[env c] post IH]; intros this Hng.
  - cbn. rewrite orb_false_r. reflexivity.
  - cbn in Hng. apply andb_true_iff in Hng. destruct Hng as [Hc Hpost].
    apply negb_true_iff in Hc.
    cbn [run scroll_handled existsb snd].
    rewrite (IH _ Hpost), invoke_observed, Hc.
    fold (scroll_handled post).
    destruct (is_scroll c); cbn.
    + symmetry. apply orb_true_r.
    + reflexivity.
Qed.

Lemma run_since_grant (pre post : list (Env * Call)) (genv : Env) (ge : ScrollEvent)
    (this : Instance) :
  no_grant post = true ->
  observed (run (pre ++ (genv, HandleResponderGrant ge) :: post) this)
  = scroll_handled post.
Proof.
  intros Hng. rewrite run_app. cbn [run].
  rewrite (run_no_grant _ _ Hng), invoke_observed. reflexivity.
Qed.

(** C7.  The termination-request handler returns the negation of
    [observedScrollSinceBecomingResponder] and changes nothing; hence, after
    any sequence of calls that holds a responder grant, it returns [true] if
    and only if no scroll event was handled since the most recent grant:
    [false] after a grant followed by a scroll event, [true] after a grant
    with no scroll. *)
Theorem scrollResponderHandleTerminationRequest_iff (env : Env) (this : Instance) :
  (let r := scrollResponderHandleTerminationRequest env this in
   completion r = Normal (negb (observedScrollSinceBecomingResponder (state this)))
   /\ after r = this
   /\ effects r = [])
  /\ forall (pre post : list (Env * Call)) (genv : Env) (ge : ScrollEvent),
       no_grant post = true ->
       let granted := run (pre ++ (genv, HandleResponderGrant ge) :: post) this in
       (completion (scrollResponderHandleTerminationRequest env granted) = Normal true
          <-> scroll_handled post = false)
       /\ (completion (scrollResponderHandleTerminationRequest env granted) = Normal false
          <-> scroll_handled post = true).
Proof.
  split.
  - rewrite scrollResponderHandleTerminationRequest_run. repeat split.
  - intros pre post genv ge Hng. cbv zeta.
    rewrite scrollResponderHandleTerminationRequest_run.
    unfold completion. cbn [fst].
    pose proof (run_since_grant pre post genv ge this Hng) as H.
    unfold observed in H. rewrite H.
    destruct (scroll_handled post); cbn; split; split; congruence.
Qed.

Lemma scrollResponderHandleTerminationRequest_iff_witness :
  completion (scrollResponderHandleTerminationRequest (env_at 40)
                (run [(env_at 20, HandleResponderGrant a_scroll_event);
                      (env_at 30, HandleScroll a_scroll_event)]
                     (mounted props_never)))
  = Normal false
  /\ completion (scrollResponderHandleTerminationRequest (env_at 40)
                   (run [(env_at 20, HandleResponderGrant a_scroll_event)]
                        (mounted props_never)))
     = Normal true.
Proof.
  split.
  - apply (proj2 (scrollResponderHandleTerminationRequest_iff (env_at 40)
                    (mounted props_never))
             [] [(env_at 30, HandleScroll a_scroll_event)] (env_at 20) a_scroll_event
             eq_refl).
    reflexivity.
  - apply (proj2 (scrollResponderHandleTerminationRequest_iff (env_at 40)
                    (mounted props_never))
             [] [] (env_at 20) a_scroll_event eq_refl).
    reflexivity.
Defined.

(** C8.  Along every sequence of handler calls: right after a responder grant
    [observedScrollSinceBecomingResponder] is false; a scroll event sets it;
    every method that is neither the grant nor the scroll handler leaves it as
    it is; so after a grant it is false until the first scroll event, and
    from then on true until the next grant. *)
Theorem observedScrollSinceBecomingResponder_lifecycle :
  (forall e env this,
      observedScrollSinceBecomingResponder
        (state (after (scrollResponderHandleResponderGrant e env this))) = false)
  /\ (forall e env this,
      observedScrollSinceBecomingResponder
        (state (after (scrollResponderHandleScroll e env this))) = true)
  /\ (forall c env this,
      is_grant c = false -> is_scroll c = false ->
      observedScrollSinceBecomingResponder (state (after (invoke c env this)))
      = observedScrollSinceBecomingResponder (state this))
  /\ (forall pre post genv ge this,
      no_grant post = true ->
      observedScrollSinceBecomingResponder
        (state (run (pre ++ (genv, HandleResponderGrant ge) :: post) this))
      = scroll_handled post)
  /\ (forall pre quiet rest genv ge senv se this,
      no_grant quiet = true -> scroll_handled quiet = false -> no_grant rest = true ->
      observedScrollSinceBecomingResponder
        (state (run (pre ++ (genv, HandleResponderGrant ge) :: quiet) this)) = false
      /\ observedScrollSinceBecomingResponder
           (state (run (pre ++ (genv, HandleResponderGrant ge)
                            :: quiet ++ (senv, HandleScroll se) :: rest) this)) = true).
Proof.
  split; [|split; [|split; [|split]]].
  - intros e env this. rewrite scrollResponderHandleResponderGrant_run. reflexivity.
  - intros e env this. rewrite scrollResponderHandleScroll_run. reflexivity.
  - intros c env this Hg Hs.
    pose proof (invoke_observed c env this) as H. rewrite Hg, Hs in H. exact H.
  - intros pre post genv ge this Hng. exact (run_since_grant pre post genv ge this Hng).
  - intros pre quiet rest genv ge senv se this Hq Hs Hr.
    pose proof (run_since_grant pre quiet genv ge this Hq) as H1.
    unfold observed in H1. rewrite H1.
    split; [exact Hs|].
    assert (Hng : no_grant (quiet ++ (senv, HandleScroll se) :: rest) = true).
    { unfold no_grant in *. rewrite forallb_app. cbn. rewrite Hq, Hr. reflexivity. }
    pose proof (run_since_grant pre _ genv ge this Hng) as H2.
    unfold observed in H2. rewrite H2.
    unfold scroll_handled. rewrite existsb_app. cbn. apply orb_true_r.
Qed.

(** Touch start, grant, touch move, scroll, momentum begin, release: the flag
    is set; a further grant resets it. *)
Lemma observedScrollSinceBecomingResponder_lifecycle_witness :
  observedScrollSinceBecomingResponder
    (state (run ([(env_at 0, HandleTouchStart a_press_event)]
                 ++ (env_at 1, HandleResponderGrant a_scroll_event)
                 :: [(env_at 2, HandleTouchMove a_press_event)]
                 ++ (env_at 3, HandleScroll a_scroll_event)
                 :: [(env_at 4, HandleMomentumScrollBegin a_scroll_event);
                     (env_at 5, HandleResponderRelease a_press_event)])
                (mounted props_never)))
  = true
  /\ observedScrollSinceBecomingResponder
       (state (run ([(env_at 0, HandleTouchStart a_press_event);
                     (env_at 1, HandleResponderGrant a_scroll_event);
                     (env_at 3, HandleScroll a_scroll_event)]
                    ++ (env_at 6, HandleResponderGrant a_scroll_event)
                    :: [(env_at 7, HandleTouchMove a_press_event)])
                   (mounted props_never)))
     = false.
Proof.
  destruct observedScrollSinceBecomingResponder_lifecycle as [_ [_ [_ [Hrun Hfirst]]]].
  split.
  - apply (Hfirst [(env_at 0, HandleTouchStart a_press_event)]
                  [(env_at 2, HandleTouchMove a_press_event)]
                  [(env_at 4, HandleMomentumScrollBegin a_scroll_event);
                   (env_at 5, HandleResponderRelease a_press_event)]);
      reflexivity.
  - apply (Hrun [(env_at 0, HandleTouchStart a_press_event);
                 (env_at 1, HandleResponderGrant a_scroll_event);
                 (env_at 3, HandleScroll a_scroll_event)]
                [(env_at 7, HandleTouchMove a_press_event)]).
    reflexivity.
Defined.

(** * Further properties of the mixin *)

(** ** What a call leaves behind *)

Lemma scrollResponderZoomTo_run rect animated env this :
  scrollResponderZoomTo rect animated env this
  = if platformIsIOS env then
      match getNativeScrollRef env with
      | Some r =>
          (Normal tt, this,
           zoom_warning rect animated
           ++ [ZoomToRect r (zoom_rect rect) (Js.not_false (zoom_animated rect animated))])
      | None =>
          (Throw "Expected zoomToRect to be called on a scrollViewRef. If this exception occurs it is likely a bug in React Native",
           this, zoom_warning rect animated)
      end
    else (Throw "zoomToRect is not implemented", this, []).
Proof.
  unfold scrollResponderZoomTo, zoom_warning, zoom_rect, zoom_animated,
    bind, ask, invariant, console_warn, when, emit, ret, throw.
  destruct (platformIsIOS env); [|reflexivity].
  destruct (rect_animated rect); [|destruct animated]; cbn;
    destruct (getNativeScrollRef env); reflexivity.
Qed.

Lemma UNSAFE_componentWillMount_run env this :
  UNSAFE_componentWillMount env this
  = (Normal tt,
     set_subscriptions (Some keyboardWillShow) (Some keyboardWillHide)
       (Some keyboardDidShow) (Some keyboardDidHide)
       (set_additionalScrollOffset 0 (set_keyboardWillOpenTo None this)),
     match keyboardShouldPersistTaps (props this) with
     | TapsBool b => [ConsoleWarn (warning_text (DeprecatedBooleanPersistTaps b))]
     | _ => []
     end
     ++ [KeyboardAddListener keyboardWillShow; KeyboardAddListener keyboardWillHide;
         KeyboardAddListener keyboardDidShow; KeyboardAddListener keyboardDidHide]).
Proof.
  unfold UNSAFE_componentWillMount, bind, this_, console_warn, assign, emit, ret.
  destruct (keyboardShouldPersistTaps (props this)); reflexivity.
Qed.

Lemma componentWillUnmount_run env this :
  componentWillUnmount env this
  = (Normal tt, this,
     removal (_subscriptionKeyboardWillShow this)
     ++ removal (_subscriptionKeyboardWillHide this)
     ++ removal (_subscriptionKeyboardDidShow this)
     ++ removal (_subscriptionKeyboardDidHide this)).
Proof.
  unfold componentWillUnmount, remove_subscription, removal, bind, this_, emit, ret.
  destruct (_subscriptionKeyboardWillShow this),
           (_subscriptionKeyboardWillHide this),
           (_subscriptionKeyboardDidShow this),
           (_subscriptionKeyboardDidHide this); reflexivity.
Qed.

Lemma scrollResponderScrollToEnd_run options env this :
  scrollResponderScrollToEnd options env this
  = (Normal tt, this,
     [DispatchViewManagerCommand (scrollableNode env) scrollToEnd
        [BoolArg (Js.not_false (match options with Some o => o | None => None end))]]).
Proof. reflexivity. Qed.

Lemma scrollResponderFlashScrollIndicators_run env this :
  scrollResponderFlashScrollIndicators env this
  = (Normal tt, this,
     [DispatchViewManagerCommand (scrollableNode env) flashScrollIndicators []]).
Proof. reflexivity. Qed.

Lemma scrollResponderHandleResponderReject_run env this :
  scrollResponderHandleResponderReject env this = (Normal tt, this, []).
Proof. reflexivity. Qed.

Lemma scrollResponderGetScrollableNode_run env this :
  scrollResponderGetScrollableNode env this = (Normal (scrollableNode env), this, []).
Proof. reflexivity. Qed.

Lemma scrollResponderTextInputFocusError_run msg env this :
  scrollResponderTextInputFocusError msg env this
  = (Normal tt, this, [ConsoleError ("Error measuring text field: " ++ msg)]).
Proof. reflexivity. Qed.

Ltac invoke_run :=
  unfold invoke, returning, bind;
  rewrite ?scrollResponderHandleScrollShouldSetResponder_run,
          ?scrollResponderHandleStartShouldSetResponder_run,
          ?scrollResponderHandleStartShouldSetResponderCapture_run,
          ?scrollResponderHandleTerminationRequest_run,
          ?scrollResponderHandleTouchEnd_run,
          ?scrollResponderHandleTouchCancel_run,
          ?scrollResponderHandleResponderRelease_run,
          ?scrollResponderHandleScroll_run,
          ?scrollResponderHandleResponderGrant_run,
          ?scrollResponderHandleScrollBeginDrag_run,
          ?scrollResponderHandleScrollEndDrag_run,
          ?scrollResponderHandleMomentumScrollBegin_run,
          ?scrollResponderHandleMomentumScrollEnd_run,
          ?scrollResponderHandleTouchStart_run,
          ?scrollResponderHandleTouchMove_run,
          ?scrollResponderIsAnimating_run,
          ?scrollResponderScrollTo_run,
          ?scrollResponderHandleResponderReject_run,
          ?scrollResponderGetScrollableNode_run,
          ?scrollResponderTextInputFocusError_run,
          ?scrollResponderScrollToEnd_run,
          ?scrollResponderZoomTo_run,
          ?scrollResponderFlashScrollIndicators_run,
          ?scrollResponderScrollNativeHandleToKeyboard_run,
          ?scrollResponderInputMeasureAndScrollToKeyboard_run,
          ?UNSAFE_componentWillMount_run,
          ?componentWillUnmount_run,
          ?scrollResponderKeyboardWillShow_run,
          ?scrollResponderKeyboardWillHide_run,
          ?scrollResponderKeyboardDidShow_run,
          ?scrollResponderKeyboardDidHide_run.

Lemma invoke_after (c : Call) (env : Env) (this : Instance) :
  after (invoke c env this) = instance_after c env this.
Proof.
  destruct c; invoke_run; unfold instance_after; try reflexivity;
    try (destruct (scrollableNode env); reflexivity);
    try (destruct (platformIsIOS env); [|reflexivity];
         destruct (getNativeScrollRef env); reflexivity);
    try (destruct e; reflexivity).
Qed.

Lemma run_cons env c rest this :
  run ((env, c) :: rest) this = run rest (instance_after c env this).
Proof. cbn [run]. rewrite invoke_after. reflexivity. Qed.

Lemma instance_after_props c env this : props (instance_after c env this) = props this.
Proof.
  destruct c; try reflexivity.
  - cbn. destruct (scrollableNode env); reflexivity.
  - destruct e; reflexivity.
Qed.

Lemma run_props calls this : props (run calls this) = props this.
Proof.
  revert this. induction calls as [|[env c] calls IH]; intros this.
  - reflexivity.
  - rewrite run_cons, IH. apply instance_after_props.
Qed.

Lemma instance_after_state c env this :
  writes_state c = false -> state (instance_after c env this) = state this.
Proof.
  destruct c; try discriminate; intros _; try reflexivity.
  - cbn. destruct (scrollableNode env); reflexivity.
  - destruct e; reflexivity.
Qed.

Lemma run_preserves {A : Type} (f : Instance -> A) (quiet : Call -> bool) :
  (forall c env this, quiet c = true -> f (instance_after c env this) = f this) ->
  forall calls this,
    forallb (fun ec => quiet (snd ec)) calls = true -> f (run calls this) = f this.
Proof.
  intros Hq calls. induction calls as [|[env c] calls IH]; intros this Hall.
  - reflexivity.
  - cbn in Hall. apply andb_true_iff in Hall. destruct Hall as [Hc Hall].
    rewrite run_cons, (IH _ Hall). apply Hq. exact Hc.
Qed.

(** X1.  No method of the mixin assigns [this.props], and only the seven
    handlers of touch start/end/cancel, scroll, responder grant and momentum
    begin/end assign a field of [this.state]: the queries, the release
    handler, the drag handlers, the keyboard handlers and the outbound
    commands (scroll-to, scroll-to-end, zoom, flash, scroll-to-keyboard)
    leave the responder state as it is, also when they throw. *)
Theorem invoke_frame (c : Call) (env : Env) (this : Instance) :
  props (after (invoke c env this)) = props this
  /\ (writes_state c = false -> state (after (invoke c env this)) = state this).
Proof.
  rewrite invoke_after. split.
  - apply instance_after_props.
  - apply instance_after_state.
Qed.

Lemma invoke_frame_witness :
  state (after (invoke (ZoomTo (a_rect None) (Some false)) (env_at 0)
                  (mounted props_never)))
  = state (mounted props_never).
Proof.
  apply (proj2 (invoke_frame (ZoomTo (a_rect None) (Some false)) (env_at 0)
                  (mounted props_never))).
  reflexivity.
Defined.

(** ** Touches *)

Lemma instance_after_isTouching c env this :
  isTouching (state (instance_after c env this))
  = match touch_outcome c with
    | Some b => b
    | None => isTouching (state this)
    end.
Proof.
  destruct c; try reflexivity.
  - cbn. destruct (scrollableNode env); reflexivity.
  - destruct e; reflexivity.
Qed.

Lemma run_no_touch post this :
  no_touch post = true -> isTouching (state (run post this)) = isTouching (state this).
Proof.
  apply (run_preserves (fun i => isTouching (state i))
           (fun c => match touch_outcome c with Some _ => false | None => true end)).
  intros c env i Hc. rewrite instance_after_isTouching.
  destruct (touch_outcome c); [discriminate | reflexivity].
Qed.

(** X2.  Along any sequence of calls, [isTouching] is what the last touch
    handler assigned: [true] after a touch start, whether touches remain
    after a touch end, [false] after a touch cancel; no other method changes
    it.  So [scrollResponderHandleScrollShouldSetResponder], called next,
    returns that value when the pan responder is enabled, and [false] when it
    is disabled. *)
Theorem isTouching_after_last_touch
    (pre post : list (Env * Call)) (tenv : Env) (c : Call) (b : bool)
    (env : Env) (this : Instance) :
  touch_outcome c = Some b ->
  no_touch post = true ->
  let now := run (pre ++ (tenv, c) :: post) this in
  isTouching (state now) = b
  /\ completion (scrollResponderHandleScrollShouldSetResponder env now)
     = Normal (negb (Js.to_bool (disableScrollViewPanResponder (props this))) && b).
Proof.
  intros Hc Hpost. cbv zeta.
  assert (H : isTouching (state (run (pre ++ (tenv, c) :: post) this)) = b).
  { rewrite run_app, run_cons, (run_no_touch _ _ Hpost), instance_after_isTouching, Hc.
    reflexivity. }
  split; [exact H|].
  rewrite scrollResponderHandleScrollShouldSetResponder_run.
  unfold completion, pan_disabled. cbn [fst]. rewrite H, run_props. reflexivity.
Qed.

Lemma isTouching_after_last_touch_witness :
  isTouching
    (state (run ([(env_at 0, HandleTouchStart a_press_event)]
                 ++ (env_at 5, HandleTouchEnd {| target := Some 2%Z; touches_length := 0 |})
                 :: [(env_at 6, HandleScroll a_scroll_event)])
                (mounted props_never)))
  = false
  /\ completion
       (scrollResponderHandleScrollShouldSetResponder (env_at 7)
          (run ([(env_at 0, HandleTouchStart a_press_event)]
                ++ (env_at 5, HandleTouchEnd {| target := Some 2%Z; touches_length := 0 |})
                :: [(env_at 6, HandleScroll a_scroll_event)])
               (mounted props_never)))
     = Normal (negb (Js.to_bool (disableScrollViewPanResponder (props (mounted props_never))))
               && false).
Proof.
  apply (isTouching_after_last_touch
           [(env_at 0, HandleTouchStart a_press_event)]
           [(env_at 6, HandleScroll a_scroll_event)]
           (env_at 5) (HandleTouchEnd {| target := Some 2%Z; touches_length := 0 |})
           false (env_at 7) (mounted props_never)); reflexivity.
Defined.

(** ** The grant latch *)

Lemma instance_after_became c env this :
  becameResponderWhileAnimating (state (instance_after c env this))
  = if is_grant c then is_animating env this
    else becameResponderWhileAnimating (state this).
Proof.
  destruct c; try reflexivity.
  - cbn. destruct (scrollableNode env); reflexivity.
  - destruct e; reflexivity.
Qed.

Lemma run_became_no_grant post this :
  no_grant post = true ->
  becameResponderWhileAnimating (state (run post this))
  = becameResponderWhileAnimating (state this).
Proof.
  apply (run_preserves (fun i => becameResponderWhileAnimating (state i))
           (fun c => negb (is_grant c))).
  intros c env i Hc. rewrite instance_after_became.
  apply negb_true_iff in Hc. rewrite Hc. reflexivity.
Qed.

Lemma run_became_since_grant pre post genv ge this :
  no_grant post = true ->
  becameResponderWhileAnimating
    (state (run (pre ++ (genv, HandleResponderGrant ge) :: post) this))
  = is_animating genv (run pre this).
Proof.
  intros Hpost.
  rewrite run_app, run_cons, (run_became_no_grant _ _ Hpost), instance_after_became.
  reflexivity.
Qed.

(** X3.  [becameResponderWhileAnimating] is latched by the grant and by
    nothing else: after any sequence of calls, it tells whether the surface
    was animating, by the clock and the time stamps of that moment, when the
    most recent responder grant was handled. *)
Theorem becameResponderWhileAnimating_latched
    (pre post : list (Env * Call)) (genv : Env) (ge : ScrollEvent) (this : Instance) :
  no_grant post = true ->
  becameResponderWhileAnimating
    (state (run (pre ++ (genv, HandleResponderGrant ge) :: post) this)) = true
  <-> animating_at (performanceNow genv) (state (run pre this)).
Proof.
  intros Hpost. rewrite (run_became_since_grant _ _ _ _ _ Hpost).
  apply is_animating_iff.
Qed.

Lemma becameResponderWhileAnimating_latched_witness :
  becameResponderWhileAnimating
    (state (run ([(env_at 100, HandleMomentumScrollEnd a_scroll_event)]
                 ++ (env_at 110, HandleResponderGrant a_scroll_event)
                 :: [(env_at 500, HandleTouchMove a_press_event)])
                (mounted props_never)))
  = true.
Proof.
  apply (becameResponderWhileAnimating_latched
           [(env_at 100, HandleMomentumScrollEnd a_scroll_event)]
           [(env_at 500, HandleTouchMove a_press_event)]
           (env_at 110) a_scroll_event (mounted props_never) eq_refl).
  left. vm_compute. reflexivity.
Defined.

(** ** Momentum time stamps *)

Lemma instance_after_endTime c env this :
  lastMomentumScrollEndTime (state (instance_after c env this))
  = if is_momentum_end c then performanceNow env
    else lastMomentumScrollEndTime (state this).
Proof.
  destruct c; try reflexivity.
  - cbn. destruct (scrollableNode env); reflexivity.
  - destruct e; reflexivity.
Qed.

Lemma instance_after_beginTime c env this :
  lastMomentumScrollBeginTime (state (instance_after c env this))
  = if is_momentum_begin c then performanceNow env
    else lastMomentumScrollBeginTime (state this).
Proof.
  destruct c; try reflexivity.
  - cbn. destruct (scrollableNode env); reflexivity.
  - destruct e; reflexivity.
Qed.

Lemma run_endTime post this :
  no_momentum_end post = true ->
  lastMomentumScrollEndTime (state (run post this))
  = lastMomentumScrollEndTime (state this).
Proof.
  apply (run_preserves (fun i => lastMomentumScrollEndTime (state i))
           (fun c => negb (is_momentum_end c))).
  intros c env i Hc. rewrite instance_after_endTime.
  apply negb_true_iff in Hc. rewrite Hc. reflexivity.
Qed.

Lemma run_beginTime post this :
  no_momentum_begin post = true ->
  lastMomentumScrollBeginTime (state (run post this))
  = lastMomentumScrollBeginTime (state this).
Proof.
  apply (run_preserves (fun i => lastMomentumScrollBeginTime (state i))
           (fun c => negb (is_momentum_begin c))).
  intros c env i Hc. rewrite instance_after_beginTime.
  apply negb_true_iff in Hc. rewrite Hc. reflexivity.
Qed.

(** X4.  The two time stamps are the clock readings of the most recent
    momentum-begin and momentum-end handlers: after a momentum end handled at
    time [t] and any calls that hold no further momentum end,
    [lastMomentumScrollEndTime] is [t]; likewise for momentum begin.  No other
    method writes them. *)
Theorem momentum_time_stamps
    (pre post : list (Env * Call)) (menv : Env) (me : ScrollEvent) (this : Instance) :
  (no_momentum_end post = true ->
   lastMomentumScrollEndTime
     (state (run (pre ++ (menv, HandleMomentumScrollEnd me) :: post) this))
   = performanceNow menv
   /\ lastMomentumScrollBeginTime
        (state (run (pre ++ [(menv, HandleMomentumScrollEnd me)]) this))
      = lastMomentumScrollBeginTime (state (run pre this)))
  /\ (no_momentum_begin post = true ->
      lastMomentumScrollBeginTime
        (state (run (pre ++ (menv, HandleMomentumScrollBegin me) :: post) this))
      = performanceNow menv
      /\ lastMomentumScrollEndTime
           (state (run (pre ++ [(menv, HandleMomentumScrollBegin me)]) this))
         = lastMomentumScrollEndTime (state (run pre this))).
Proof.
  split; intros Hpost; split.
  - rewrite run_app, run_cons, (run_endTime _ _ Hpost), instance_after_endTime.
    reflexivity.
  - rewrite run_app, run_cons. cbn [run]. rewrite instance_after_beginTime. reflexivity.
  - rewrite run_app, run_cons, (run_beginTime _ _ Hpost), instance_after_beginTime.
    reflexivity.
  - rewrite run_app, run_cons. cbn [run]. rewrite instance_after_endTime. reflexivity.
Qed.

Lemma momentum_time_stamps_witness :
  lastMomentumScrollEndTime
    (state (run ([(env_at 10, HandleMomentumScrollBegin a_scroll_event)]
                 ++ (env_at 90, HandleMomentumScrollEnd a_scroll_event)
                 :: [(env_at 95, HandleTouchStart a_press_event)])
                (mounted props_never)))
  = 90.
Proof.
  apply (proj1 (momentum_time_stamps
                  [(env_at 10, HandleMomentumScrollBegin a_scroll_event)]
                  [(env_at 95, HandleTouchStart a_press_event)]
                  (env_at 90) a_scroll_event (mounted props_never))).
  reflexivity.
Defined.

Lemma momentum_stamps_after_begin pre post benv be this :
  no_momentum_begin post = true ->
  no_momentum_end post = true ->
  let now := run (pre ++ (benv, HandleMomentumScrollBegin be) :: post) this in
  lastMomentumScrollBeginTime (state now) = performanceNow benv
  /\ lastMomentumScrollEndTime (state now) = lastMomentumScrollEndTime (state (run pre this)).
Proof.
  intros Hb He. cbv zeta. rewrite run_app, run_cons. split.
  - rewrite (run_beginTime _ _ Hb), instance_after_beginTime. reflexivity.
  - rewrite (run_endTime _ _ He), instance_after_endTime. reflexivity.
Qed.


(** X5.  Momentum in flight: once a momentum begin is handled at a time
    later than the last recorded momentum end, [scrollResponderIsAnimating()]
    returns [true] at every later call, however much time has passed, until a
    momentum end (or another begin) is handled; and the capture handler
    returns [true] with it. *)
Theorem animating_while_momentum_in_flight
    (pre post : list (Env * Call)) (benv : Env) (be : ScrollEvent)
    (env : Env) (e : PressEvent) (this : Instance) :
  lastMomentumScrollEndTime (state (run pre this)) < performanceNow benv ->
  no_momentum_begin post = true ->
  no_momentum_end post = true ->
  let now := run (pre ++ (benv, HandleMomentumScrollBegin be) :: post) this in
  completion (scrollResponderIsAnimating env now) = Normal true
  /\ completion (scrollResponderHandleStartShouldSetResponderCapture e env now)
     = Normal true.
Proof.
  intros Hlt Hb He. cbv zeta.
  destruct (momentum_stamps_after_begin pre post benv be this Hb He) as [Hbegin Hend].
  assert (Ha : is_animating env (run (pre ++ (benv, HandleMomentumScrollBegin be) :: post)
                                    this) = true).
  { apply is_animating_iff. right. rewrite Hbegin, Hend. exact Hlt. }
  rewrite scrollResponderIsAnimating_run,
    scrollResponderHandleStartShouldSetResponderCapture_run.
  unfold completion, capture_should_set. cbn [fst]. rewrite Ha. split; reflexivity.
Qed.

Lemma animating_while_momentum_in_flight_witness :
  completion
    (scrollResponderIsAnimating (env_at 100000)
       (run ([(env_at 20, HandleMomentumScrollEnd a_scroll_event)]
             ++ (env_at 50, HandleMomentumScrollBegin a_scroll_event)
             :: [(env_at 60, HandleTouchStart a_press_event)])
            (mounted props_disabled_never)))
  = Normal true
  /\ completion
       (scrollResponderHandleStartShouldSetResponderCapture a_press_event (env_at 100000)
          (run ([(env_at 20, HandleMomentumScrollEnd a_scroll_event)]
                ++ (env_at 50, HandleMomentumScrollBegin a_scroll_event)
                :: [(env_at 60, HandleTouchStart a_press_event)])
               (mounted props_disabled_never)))
     = Normal true.
Proof.
  apply (animating_while_momentum_in_flight
           [(env_at 20, HandleMomentumScrollEnd a_scroll_event)]
           [(env_at 60, HandleTouchStart a_press_event)]
           (env_at 50) a_scroll_event (env_at 100000) a_press_event
           (mounted props_disabled_never)); reflexivity.
Defined.



(** X7.  A component on which no momentum event was ever handled starts with
    both time stamps at 0: [scrollResponderIsAnimating()] returns [true] on it
    exactly while the clock [performanceNow()] reads less than 16, and
    [false] from then on. *)
Theorem animating_before_any_momentum
    (p : Props) (calls : list (Env * Call)) (env : Env) :
  no_momentum_begin calls = true ->
  no_momentum_end calls = true ->
  completion (scrollResponderIsAnimating env (run calls (mounted p))) = Normal true
  <-> performanceNow env < 16.
Proof.
  intros Hb He.
  rewrite scrollResponderIsAnimating_run. unfold completion. cbn [fst].
  assert (Hiff : is_animating env (run calls (mounted p)) = true
                 <-> performanceNow env < 16).
  { rewrite is_animating_iff. unfold animating_at.
    rewrite (run_endTime _ _ He), (run_beginTime _ _ Hb). cbn.
    setoid_replace (performanceNow env - 0) with (performanceNow env) by ring.
    split.
    - intros [H|H]; [exact H|]. exfalso. exact (Qlt_irrefl _ H).
    - intros H. left. exact H. }
  rewrite <- Hiff.
  destruct (is_animating env (run calls (mounted p))); split; congruence.
Qed.

Lemma animating_before_any_momentum_witness :
  completion (scrollResponderIsAnimating (env_at 5)
                (run [(env_at 1, HandleTouchStart a_press_event)] (mounted props_never)))
  = Normal true.
Proof.
  apply (animating_before_any_momentum props_never
           [(env_at 1, HandleTouchStart a_press_event)] (env_at 5) eq_refl eq_refl).
  vm_compute. reflexivity.
Defined.

(** ** Drag and the frame-rate logger *)

Lemma no_velocity_iff (v : option (Q * Q)) :
  no_velocity v = true <-> v = None \/ exists x y, v = Some (x, y) /\ x == 0 /\ y == 0.
Proof.
  destruct v as [[x y]|]; cbn.
  - rewrite andb_true_iff, !Qeq_bool_iff. split.
    + intros [Hx Hy]. right. exists x, y. auto.
    + intros [H|[x' [y' [H [Hx Hy]]]]]; [discriminate|]. inversion H; subst. auto.
  - split; auto.
Qed.

(** X8.  The drag-end handler tells the frame-rate logger that the scroll
    ended if and only if the surface is not animating and the event carries
    no velocity or a velocity that is zero on both axes; with a velocity that
    is not zero, or while animating, it leaves that to the momentum-end
    handler, which always does it.  Whatever it decides, it forwards to
    [onScrollEndDrag] afterwards and changes nothing. *)
Theorem scrollResponderHandleScrollEndDrag_endScroll
    (e : ScrollEvent) (env : Env) (this : Instance) :
  let r := scrollResponderHandleScrollEndDrag e env this in
  let ends :=
    ~ animating_at (performanceNow env) (state this)
    /\ (velocity e = None
        \/ exists x y, velocity e = Some (x, y) /\ x == 0 /\ y == 0) in
  completion r = Normal tt
  /\ after r = this
  /\ (ends ->
      effects r = FrameRateEndScroll :: host_call this onScrollEndDrag (ScrollPayload e))
  /\ (~ ends -> effects r = host_call this onScrollEndDrag (ScrollPayload e))
  /\ forall me menv,
       effects (scrollResponderHandleMomentumScrollEnd me menv this)
       = FrameRateEndScroll :: host_call this onMomentumScrollEnd (ScrollPayload me).
Proof.
  rewrite scrollResponderHandleScrollEndDrag_run.
  unfold completion, after, effects. cbn [fst snd].
  assert (Hiff : negb (is_animating env this) && no_velocity (velocity e) = true
                 <-> ~ animating_at (performanceNow env) (state this)
                     /\ (velocity e = None
                         \/ exists x y, velocity e = Some (x, y) /\ x == 0 /\ y == 0)).
  { rewrite andb_true_iff, negb_true_iff, no_velocity_iff, <- not_true_iff_false,
      is_animating_iff. reflexivity. }
  split; [reflexivity|]. split; [reflexivity|].
  destruct (negb (is_animating env this) && no_velocity (velocity e)).
  - split; [|split].
    + intros _. reflexivity.
    + intros Hn. exfalso. apply Hn. apply Hiff. reflexivity.
    + intros me menv. rewrite scrollResponderHandleMomentumScrollEnd_run. reflexivity.
  - split; [|split].
    + intros H. apply Hiff in H. discriminate.
    + intros _. reflexivity.
    + intros me menv. rewrite scrollResponderHandleMomentumScrollEnd_run. reflexivity.
Qed.

Lemma scrollResponderHandleScrollEndDrag_endScroll_witness :
  effects (scrollResponderHandleScrollEndDrag {| velocity := Some (0, 0) |} (env_at 20)
             (mounted props_never))
  = FrameRateEndScroll
    :: host_call (mounted props_never) onScrollEndDrag
         (ScrollPayload {| velocity := Some (0, 0) |}).
Proof.
  destruct (scrollResponderHandleScrollEndDrag_endScroll {| velocity := Some (0, 0) |}
              (env_at 20) (mounted props_never)) as [_ [_ [Hends _]]].
  apply Hends. split.
  - intros [H|H]; vm_compute in H; discriminate.
  - right. exists 0, 0. repeat split; reflexivity.
Defined.

(** ** The capture handler and the tap-dismiss policy *)

(** X9.  The capture handler returns [false] exactly when the surface is not
    animating and one of these holds: the pan responder is disabled, the
    tap-dismiss policy is not the never-persist variant, no text input is
    focused, the event has no (truthy) target, or the target is a text
    input. *)
Theorem scrollResponderHandleStartShouldSetResponderCapture_false_iff
    (e : PressEvent) (env : Env) (this : Instance) :
  completion (scrollResponderHandleStartShouldSetResponderCapture e env this) = Normal false
  <-> ~ animating_at (performanceNow env) (state this)
      /\ (disableScrollViewPanResponder (props this) = Some true
          \/ (taps_falsy (keyboardShouldPersistTaps (props this)) = false
              /\ keyboardShouldPersistTaps (props this) <> TapsString "never")
          \/ currentlyFocusedField env = None
          \/ target e = None
          \/ target e = Some 0%Z
          \/ exists t, target e = Some t /\ isTextInput env t = true).
Proof.
  rewrite scrollResponderHandleStartShouldSetResponderCapture_run.
  unfold completion. cbn [fst].
  pose proof (capture_should_set_iff env this e) as Hiff.
  split.
  - intros H. injection H as H.
    assert (Hno : capture_should_set env this e <> true) by congruence.
    rewrite Hiff in Hno.
    split; [tauto|].
    destruct (disableScrollViewPanResponder (props this)) as [[|]|] eqn:Ed;
      [left; reflexivity | |];
      right.
    all: assert (Hpol :
        (taps_falsy (keyboardShouldPersistTaps (props this)) = false
         /\ keyboardShouldPersistTaps (props this) <> TapsString "never")
        \/ (taps_falsy (keyboardShouldPersistTaps (props this)) = true
            \/ keyboardShouldPersistTaps (props this) = TapsString "never")).
    1, 3: destruct (taps_falsy (keyboardShouldPersistTaps (props this)));
      [right; left; reflexivity|];
      destruct (taps_is (keyboardShouldPersistTaps (props this)) "never") eqn:En;
      [right; right; apply taps_is_iff; exact En|];
      left; split; [reflexivity|];
      intros Hc; apply taps_is_iff in Hc; congruence.
    all: destruct Hpol as [Hpol|Hpol]; [left; exact Hpol|right].
    all: destruct (currentlyFocusedField env) as [f|] eqn:Ef; [|left; reflexivity]; right.
    all: destruct (target e) as [t|] eqn:Et; [|left; reflexivity]; right.
    all: destruct (Z.eq_dec t 0) as [Hz|Hz]; [left; congruence|right].
    all: destruct (isTextInput env t) eqn:Ei; [exists t; auto|].
    all: exfalso; apply Hno; right;
      (split; [discriminate|]); (split; [exact Hpol|]); (split; [discriminate|]);
      exists t; auto.
  - intros [Hna Hd].
    destruct (capture_should_set env this e) eqn:E; [|reflexivity].
    exfalso.
    destruct (proj1 Hiff eq_refl) as [Ha|[Hen [Hp [Hf [t [Ht [Hz Hi]]]]]]]; [tauto|].
    destruct Hd as [H|[[H1 H2]|[H|[H|[H|[t' [H1 H2]]]]]]]; try congruence.
    destruct Hp; congruence.
Qed.

Lemma scrollResponderHandleStartShouldSetResponderCapture_false_iff_witness :
  completion (scrollResponderHandleStartShouldSetResponderCapture (press_on 1) (env_at 20)
                (mounted props_never))
  = Normal false.
Proof.
  apply (scrollResponderHandleStartShouldSetResponderCapture_false_iff (press_on 1)
           (env_at 20) (mounted props_never)).
  split.
  - intros [H|H]; vm_compute in H; discriminate.
  - do 5 right. exists 1%Z. split; reflexivity.
Defined.

(** X10.  With a tap-dismiss policy that keeps the keyboard, [true],
    ['always'] or ['handled'], the capture handler never captures a touch for
    the keyboard's sake: it returns [true] if and only if the surface is
    animating, whatever is focused and whatever is touched. *)
Theorem scrollResponderHandleStartShouldSetResponderCapture_persisting
    (e : PressEvent) (env : Env) (this : Instance) :
  keyboardShouldPersistTaps (props this) = TapsBool true
  \/ keyboardShouldPersistTaps (props this) = TapsString "always"
  \/ keyboardShouldPersistTaps (props this) = TapsString "handled" ->
  completion (scrollResponderHandleStartShouldSetResponderCapture e env this) = Normal true
  <-> animating_at (performanceNow env) (state this).
Proof.
  intros Hp.
  rewrite scrollResponderHandleStartShouldSetResponderCapture_run.
  unfold completion. cbn [fst].
  pose proof (capture_should_set_iff env this e) as Hiff.
  split.
  - intros H. injection H as H. apply Hiff in H.
    destruct H as [H|[_ [Hn _]]]; [exact H|].
    exfalso. destruct Hp as [Hp|[Hp|Hp]]; rewrite Hp in Hn;
      destruct Hn as [Hn|Hn]; discriminate.
  - intros H. f_equal. apply Hiff. left. exact H.
Qed.

Lemma scrollResponderHandleStartShouldSetResponderCapture_persisting_witness :
  completion (scrollResponderHandleStartShouldSetResponderCapture (press_on 2) (env_at 5)
                (mounted props_handled))
  = Normal true.
Proof.
  apply (scrollResponderHandleStartShouldSetResponderCapture_persisting (press_on 2)
           (env_at 5) (mounted props_handled)).
  - right. right. reflexivity.
  - left. vm_compute. reflexivity.
Defined.

(** ** Release, along a sequence of calls *)

(** X11.  After any sequence of calls, a release blurs the focused input if
    and only if the policy is neither [true] nor ['always'], an input is
    focused and is not the target of the release, no scroll event was handled
    since the most recent responder grant, and the surface was not animating
    when that grant was handled.  In particular a release that ends a scroll,
    or a grab of a surface in motion, never dismisses the keyboard. *)
Theorem release_after_grant_blurs_iff
    (pre post : list (Env * Call)) (genv : Env) (ge : ScrollEvent)
    (e : PressEvent) (env : Env) (this : Instance) :
  no_grant post = true ->
  let now := run (pre ++ (genv, HandleResponderGrant ge) :: post) this in
  existsb is_blur (effects (scrollResponderHandleResponderRelease e env now)) = true
  <-> (keyboardShouldPersistTaps (props this) <> TapsBool true
       /\ keyboardShouldPersistTaps (props this) <> TapsString "always")
      /\ (exists focused, currentlyFocusedField env = Some focused
                          /\ target e <> Some focused)
      /\ scroll_handled post = false
      /\ ~ animating_at (performanceNow genv) (state (run pre this)).
Proof.
  intros Hpost. cbv zeta.
  rewrite scrollResponderHandleResponderRelease_run.
  unfold effects. cbn [snd].
  rewrite existsb_app, host_call_no_blur. cbn [orb].
  pose proof (tap_dismisses_iff env
                (run (pre ++ (genv, HandleResponderGrant ge) :: post) this) e) as Hiff.
  unfold release_conjuncts in Hiff.
  pose proof (run_since_grant pre post genv ge this Hpost) as Hobs. unfold observed in Hobs.
  rewrite Hobs, (run_became_since_grant _ _ _ _ _ Hpost), run_props in Hiff.
  rewrite <- (is_animating_iff genv (run pre this)), not_true_iff_false.
  rewrite <- Hiff.
  destruct (currentlyFocusedField env) as [f|] eqn:Ef.
  - destruct (tap_dismisses env _ e).
    + rewrite existsb_app, host_call_no_blur. cbn. tauto.
    + cbn. tauto.
  - cbn. split; [discriminate|].
    intros H. unfold tap_dismisses in H. rewrite Ef in H. discriminate.
Qed.

Lemma release_after_grant_blurs_iff_witness :
  existsb is_blur
    (effects (scrollResponderHandleResponderRelease (press_on 2) (env_at 300)
                (run ([(env_at 100, HandleTouchStart a_press_event)]
                      ++ (env_at 101, HandleResponderGrant a_scroll_event)
                      :: [(env_at 200, HandleTouchEnd a_press_event)])
                     (mounted props_never))))
  = true.
Proof.
  apply (release_after_grant_blurs_iff
           [(env_at 100, HandleTouchStart a_press_event)]
           [(env_at 200, HandleTouchEnd a_press_event)]
           (env_at 101) a_scroll_event (press_on 2) (env_at 300) (mounted props_never)
           eq_refl).
  split; [split; discriminate|].
  split; [exists 1%Z; split; [reflexivity | discriminate]|].
  split; [reflexivity|].
  intros [H|H]; vm_compute in H; discriminate.
Defined.

(** ** What the mixin never does *)

Lemma in_host_call this cb arg cb' arg' :
  In (CallHost cb arg) (host_call this cb' arg') -> supplies (props this) cb = true.
Proof.
  unfold host_call. destruct (supplies (props this) cb') eqn:E; cbn.
  - intros [H|[]]. inversion H; subst. exact E.
  - intros [].
Qed.

Ltac host_in H :=
  lazymatch type of H with
  | In _ (host_call _ _ _) => apply in_host_call in H; exact H
  | In _ (_ ++ _) => apply in_app_or in H; destruct H as [H|H]; host_in H
  | In _ (match ?x with _ => _ end) => destruct x; host_in H
  | In _ (_ :: _) => destruct H as [H|H]; [discriminate H | host_in H]
  | In _ [] => destruct H
  | False => destruct H
  | _ \/ _ => destruct H as [H|H]; [discriminate H | host_in H]
  | _ => progress (unfold scroll_to_warning, zoom_warning, removal in H; cbn in H);
         host_in H
  end.

Ltac expose_completion env :=
  try match goal with
      | |- context [match scrollableNode env with _ => _ end] =>
          destruct (scrollableNode env)
      end;
  try match goal with
      | |- context [if platformIsIOS env then _ else _] =>
          destruct (platformIsIOS env); [destruct (getNativeScrollRef env)|]
      end;
  unfold effects, ret; cbn [snd fst]; rewrite ?app_nil_r.

(** X12.  The mixin never calls a host callback that the host did not
    supply: whenever a call to [this.props.cb] is in the log of a method, the
    component's props hold [cb]. *)
Theorem host_callbacks_only_if_supplied
    (c : Call) (env : Env) (this : Instance) (cb : HostCallback) (arg : Payload) :
  In (CallHost cb arg) (effects (invoke c env this)) ->
  supplies (props this) cb = true.
Proof.
  destruct c; invoke_run; expose_completion env; intros H; host_in H.
Qed.

Lemma host_callbacks_only_if_supplied_witness :
  In (CallHost onScroll (ScrollPayload a_scroll_event))
     (effects (invoke (HandleScroll a_scroll_event) (env_at 0) (mounted props_never)))
  /\ supplies (props (mounted props_never)) onScroll = true.
Proof.
  assert (H : In (CallHost onScroll (ScrollPayload a_scroll_event))
                (effects (invoke (HandleScroll a_scroll_event) (env_at 0)
                            (mounted props_never))))
    by (left; reflexivity).
  split; [exact H|].
  exact (host_callbacks_only_if_supplied _ _ _ _ _ H).
Defined.

Ltac decide_log :=
  unfold host_call, scroll_to_warning, zoom_warning, removal;
  repeat match goal with
         | |- context [match ?x with _ => _ end] => destruct x
         end;
  cbn; try reflexivity; try (intros Hlog; discriminate Hlog).

(** X13.  Only the release handler blurs a text input, and only the command
    methods (scroll-to, scroll-to-end, flash indicators and the measurement
    callback of scroll-to-keyboard) send a command to the native scroll view:
    no touch, responder, scroll, momentum or keyboard handler ever dismisses
    the keyboard or moves the content by itself. *)
Theorem only_release_blurs_only_commands_dispatch
    (c : Call) (env : Env) (this : Instance) :
  (existsb is_blur (effects (invoke c env this)) = true ->
   exists e, c = HandleResponderRelease e)
  /\ (existsb is_dispatch (effects (invoke c env this)) = true -> is_command c = true).
Proof.
  split.
  - destruct c; try (intros _; eexists; reflexivity);
      invoke_run; expose_completion env; decide_log.
  - destruct c; try (intros _; reflexivity);
      invoke_run; expose_completion env; decide_log.
Qed.

Lemma only_release_blurs_only_commands_dispatch_witness :
  (exists e, HandleResponderRelease (press_on 2) = HandleResponderRelease e)
  /\ is_command (ScrollToEnd None) = true.
Proof.
  split.
  - apply (proj1 (only_release_blurs_only_commands_dispatch
                    (HandleResponderRelease (press_on 2)) (env_at 20)
                    (mounted props_never))).
    reflexivity.
  - apply (proj2 (only_release_blurs_only_commands_dispatch
                    (ScrollToEnd None) (env_at 20) (mounted props_never))).
    reflexivity.
Defined.

(** ** Outbound commands *)



(** X15.  Without a scrollable node, [scrollResponderScrollTo] throws
    ([nullthrows]) and sends no command, and so does the measurement callback
    of scroll-to-keyboard, which then assigns nothing either;
    [scrollResponderScrollToEnd] and [scrollResponderFlashScrollIndicators] do
    not check the node and send their command with a null node. *)
Theorem commands_without_scrollable_node (env : Env) (this : Instance) :
  scrollableNode env = None ->
  (forall a,
      let r := scrollResponderScrollTo a env this in
      completion r = Throw "Got unexpected null or undefined"
      /\ existsb is_dispatch (effects r) = false
      /\ after r = this)
  /\ (forall left top width height,
      let r := scrollResponderInputMeasureAndScrollToKeyboard left top width height
                 env this in
      completion r = Throw "Got unexpected null or undefined"
      /\ effects r = []
      /\ after r = this)
  /\ (forall options,
      let r := scrollResponderScrollToEnd options env this in
      completion r = Normal tt
      /\ exists flag, effects r = [DispatchViewManagerCommand None scrollToEnd [BoolArg flag]])
  /\ (let r := scrollResponderFlashScrollIndicators env this in
      completion r = Normal tt
      /\ effects r = [DispatchViewManagerCommand None flashScrollIndicators []]).
Proof.
  intros Hnode. split; [|split; [|split]].
  - intros a. cbv zeta. rewrite scrollResponderScrollTo_run, Hnode.
    destruct a as [x y animated|[o|]]; repeat split.
  - intros left top width height. cbv zeta.
    rewrite scrollResponderInputMeasureAndScrollToKeyboard_run, Hnode. repeat split.
  - intros options. cbv zeta. rewrite scrollResponderScrollToEnd_run, Hnode.
    split; [reflexivity|]. eexists. reflexivity.
  - cbv zeta. rewrite scrollResponderFlashScrollIndicators_run, Hnode. split; reflexivity.
Qed.

Lemma commands_without_scrollable_node_witness :
  completion (scrollResponderInputMeasureAndScrollToKeyboard 0 100 300 50
                {| performanceNow := 0; currentlyFocusedField := None;
                   isTextInput := fun _ => false; windowHeight := 800;
                   scrollableNode := None; platformIsIOS := false;
                   getNativeScrollRef := None; innerViewNode := None |}
                offset_50_requested)
  = Throw "Got unexpected null or undefined"
  /\ after (scrollResponderInputMeasureAndScrollToKeyboard 0 100 300 50
              {| performanceNow := 0; currentlyFocusedField := None;
                 isTextInput := fun _ => false; windowHeight := 800;
                 scrollableNode := None; platformIsIOS := false;
                 getNativeScrollRef := None; innerViewNode := None |}
              offset_50_requested)
     = offset_50_requested.
Proof.
  destruct (commands_without_scrollable_node
              {| performanceNow := 0; currentlyFocusedField := None;
                 isTextInput := fun _ => false; windowHeight := 800;
                 scrollableNode := None; platformIsIOS := false;
                 getNativeScrollRef := None; innerViewNode := None |}
              offset_50_requested eq_refl) as [_ [H _]].
  destruct (H 0 100 300 50) as [H1 [_ H2]]. split; assumption.
Defined.



(** ** Mount and unmount *)

Lemma run_invariant (P : Instance -> Prop) :
  (forall c env this, P this -> P (instance_after c env this)) ->
  forall calls this, P this -> P (run calls this).
Proof.
  intros Hstep calls. induction calls as [|[env c] calls IH]; intros this H.
  - exact H.
  - rewrite run_cons. apply IH. apply Hstep. exact H.
Qed.

Lemma instance_after_subscriptions c env this :
  subscriptions this
  = [Some keyboardWillShow; Some keyboardWillHide; Some keyboardDidShow; Some keyboardDidHide] ->
  subscriptions (instance_after c env this)
  = [Some keyboardWillShow; Some keyboardWillHide; Some keyboardDidShow; Some keyboardDidHide].
Proof.
  destruct c; try (intros H; exact H); try reflexivity.
  - cbn [instance_after]. destruct (scrollableNode env); intros H; exact H.
  - destruct e; intros H; exact H.
Qed.

(** X17.  [UNSAFE_componentWillMount] turns the initial instance into the
    mounted one: it subscribes to the four keyboard events, in the order
    will-show, will-hide, did-show, did-hide, clears the keyboard frame, sets
    the additional offset to 0, and warns exactly when the tap-dismiss policy
    is a boolean.  No method drops a subscription afterwards, so
    [componentWillUnmount], whatever was handled in between, removes these
    four subscriptions, once each; on an instance that was never mounted it
    does nothing.  It does not clear the fields. *)
Theorem subscriptions_acquired_and_released
    (p : Props) (k : option KeyboardEvent) (a : Q)
    (env uenv : Env) (calls : list (Env * Call)) :
  let m := UNSAFE_componentWillMount env (unmounted p k a) in
  let u := componentWillUnmount uenv (run calls (mounted p)) in
  after m = mounted p
  /\ filter is_add_listener (effects m)
     = [KeyboardAddListener keyboardWillShow; KeyboardAddListener keyboardWillHide;
        KeyboardAddListener keyboardDidShow; KeyboardAddListener keyboardDidHide]
  /\ (existsb is_warning (effects m) = true
      <-> exists b, keyboardShouldPersistTaps p = TapsBool b)
  /\ effects u
     = [SubscriptionRemove keyboardWillShow; SubscriptionRemove keyboardWillHide;
        SubscriptionRemove keyboardDidShow; SubscriptionRemove keyboardDidHide]
  /\ after u = run calls (mounted p)
  /\ effects (componentWillUnmount uenv (unmounted p k a)) = [].
Proof.
  cbv zeta. rewrite UNSAFE_componentWillMount_run, !componentWillUnmount_run.
  unfold after, effects. cbn [fst snd].
  split; [reflexivity|].
  split; [cbn; destruct (keyboardShouldPersistTaps p); reflexivity|].
  split.
  { cbn. destruct (keyboardShouldPersistTaps p) as [| |b|s]; cbn; split;
      try discriminate; try (intros [b' H]; discriminate); eauto. }
  split; [|split; reflexivity].
  assert (H : subscriptions (run calls (mounted p))
              = [Some keyboardWillShow; Some keyboardWillHide;
                 Some keyboardDidShow; Some keyboardDidHide]).
  { apply (run_invariant
             (fun i => subscriptions i
                       = [Some keyboardWillShow; Some keyboardWillHide;
                          Some keyboardDidShow; Some keyboardDidHide])).
    - intros c env' i Hi. apply instance_after_subscriptions. exact Hi.
    - reflexivity. }
  unfold subscriptions in H. injection H as H1 H2 H3 H4.
  rewrite H1, H2, H3, H4. reflexivity.
Qed.

(** ** The keyboard frame *)

Lemma instance_after_keyboard c env this :
  keyboardWillOpenTo (instance_after c env this)
  = match keyboard_outcome c with
    | Some k => k
    | None => keyboardWillOpenTo this
    end.
Proof.
  destruct c; try reflexivity.
  - cbn. destruct (scrollableNode env); reflexivity.
  - destruct e; reflexivity.
Qed.

Lemma run_no_keyboard post this :
  no_keyboard post = true -> keyboardWillOpenTo (run post this) = keyboardWillOpenTo this.
Proof.
  apply (run_preserves keyboardWillOpenTo
           (fun c => match keyboard_outcome c with Some _ => false | None => true end)).
  intros c env i Hc. rewrite instance_after_keyboard.
  destruct (keyboard_outcome c); [discriminate | reflexivity].
Qed.

(** X18.  [keyboardWillOpenTo] is what the last keyboard handler (or the
    mount) assigned: the event of a will-show, the event of a did-show that
    carries one, nothing after a will-hide, a did-hide or the mount.  A
    did-show without an event, like every method that is not a keyboard
    handler, keeps the frame stored before. *)
Theorem keyboardWillOpenTo_after_last_keyboard_event
    (pre post : list (Env * Call)) (kenv : Env) (c : Call)
    (k : option KeyboardEvent) (this : Instance) :
  keyboard_outcome c = Some k ->
  no_keyboard post = true ->
  keyboardWillOpenTo (run (pre ++ (kenv, c) :: post) this) = k.
Proof.
  intros Hc Hpost.
  rewrite run_app, run_cons, (run_no_keyboard _ _ Hpost), instance_after_keyboard, Hc.
  reflexivity.
Qed.

Lemma keyboardWillOpenTo_after_last_keyboard_event_witness :
  keyboardWillOpenTo
    (run ([(env_at 0, KeyboardDidHide a_keyboard_event)]
          ++ (env_at 1, KeyboardWillShow a_keyboard_event)
          :: [(env_at 2, KeyboardDidShow None);
              (env_at 3, HandleTouchStart a_press_event)])
         (mounted props_never))
  = Some a_keyboard_event.
Proof.
  apply (keyboardWillOpenTo_after_last_keyboard_event
           [(env_at 0, KeyboardDidHide a_keyboard_event)]
           [(env_at 2, KeyboardDidShow None); (env_at 3, HandleTouchStart a_press_event)]
           (env_at 1) (KeyboardWillShow a_keyboard_event));
    reflexivity.
Defined.

(** ** Scroll-to-keyboard, from the request to the command *)








(** ** From the claimed touch to the dismissed keyboard *)

(** X21.  A tap that the scroll view claims for the keyboard's sake dismisses
    the keyboard when it is released.  If the bubble-phase start handler
    returns [true] (policy ['handled']), or the capture handler returns [true]
    while the surface is not animating (never-persist policy, target not a
    text input, the focused field being one), then the release of the same
    event, with the same field focused, no scroll observed since the grant and
    a grant not acquired while animating, blurs the focused field. *)
Theorem claimed_tap_dismisses_keyboard
    (e : PressEvent) (env : Env) (this : Instance) :
  (completion (scrollResponderHandleStartShouldSetResponder e env this) = Normal true
   \/ (completion (scrollResponderHandleStartShouldSetResponderCapture e env this)
       = Normal true
       /\ ~ animating_at (performanceNow env) (state this)
       /\ forall focused, currentlyFocusedField env = Some focused ->
                          isTextInput env focused = true)) ->
  observedScrollSinceBecomingResponder (state this) = false ->
  becameResponderWhileAnimating (state this) = false ->
  exists focused,
    currentlyFocusedField env = Some focused
    /\ filter is_blur (effects (scrollResponderHandleResponderRelease e env this))
       = [BlurTextInput focused].
Proof.
  intros Hclaim Hobs Hbec.
  assert (Hc : release_conjuncts env this e).
  { unfold release_conjuncts. destruct Hclaim as [Hs|[Hcap [Hna Hinput]]].
    - rewrite scrollResponderHandleStartShouldSetResponder_run in Hs.
      injection Hs as Hs. unfold start_should_set in Hs.
      apply andb_true_iff in Hs. destruct Hs as [Hs Hf].
      apply andb_true_iff in Hs. destruct Hs as [_ Hp].
      apply taps_is_iff in Hp.
      destruct (currentlyFocusedField env) as [f|]; [|discriminate].
      apply strict_neq_iff in Hf.
      repeat split; try (rewrite Hp; discriminate); try assumption.
      exists f. auto.
    - rewrite scrollResponderHandleStartShouldSetResponderCapture_run in Hcap.
      injection Hcap as Hcap. apply capture_should_set_iff in Hcap.
      destruct Hcap as [Ha|[_ [Hp [Hf [t [Ht [Hz Hi]]]]]]]; [contradiction|].
      destruct (currentlyFocusedField env) as [f|] eqn:Ef; [|congruence].
      repeat split; try assumption.
      + intros Hc. rewrite Hc in Hp. destruct Hp; discriminate.
      + intros Hc. rewrite Hc in Hp. destruct Hp; discriminate.
      + exists f. split; [reflexivity|].
        intros Hc. rewrite Ht in Hc. inversion Hc; subst t.
        rewrite (Hinput f eq_refl) in Hi. discriminate. }
  rewrite scrollResponderHandleResponderRelease_run. unfold effects. cbn [snd].
  pose proof (proj2 (tap_dismisses_iff env this e) Hc) as Hd.
  destruct Hc as [_ [[f [Hf _]] _]].
  exists f. split; [exact Hf|].
  rewrite Hf, Hd, !filter_app, !host_call_filter_blur. reflexivity.
Qed.

Lemma claimed_tap_dismisses_keyboard_witness :
  exists focused,
    currentlyFocusedField (env_at 20) = Some focused
    /\ filter is_blur
         (effects (scrollResponderHandleResponderRelease (press_on 2) (env_at 20)
                     (mounted props_handled)))
       = [BlurTextInput focused].
Proof.
  apply (claimed_tap_dismisses_keyboard (press_on 2) (env_at 20) (mounted props_handled)).
  - left. reflexivity.
  - reflexivity.
  - reflexivity.
Defined.
